(** * Snapshot retention handler: a shallow embedding of [lambda_handler.py]

    The handler inspects the EBS snapshots of an account, warns about the
    ones that went over the retention period and holds a (guarded) block
    that deletes the ones no AMI refers to.  The embedding keeps the
    structure of the Python module: module constants are a [Config]
    record, the boto3 clients are a [Clients] record of response
    functions, and every function of the module is a computation in a
    small state-and-exception monad whose state is the history of client
    calls together with the log. *)

From Stdlib Require Import ZArith String List Bool Lia DecimalString.
Import ListNotations.

#[local] Open Scope string_scope.
#[local] Open Scope Z_scope.

(** ** Python values *)

(** [str(n)] for an [int]. *)
Definition str_of_int (n : Z) : string := NilZero.string_of_int (Z.to_int n).

(** [len(l)] *)
Definition len {A : Type} (l : list A) : Z := Z.of_nat (length l).

(** The exception classes the module tells apart: [ValueError],
    botocore's [ClientError], and any other subclass of [Exception].
    The payload is what [str(e)] gives. *)
Inductive exn : Type :=
| ValueError (msg : string)
| ClientError (msg : string)
| OtherException (msg : string).

(** [str(e)] *)
Definition str_of_exn (e : exn) : string :=
  match e with
  | ValueError msg | ClientError msg | OtherException msg => msg
  end.

(** What a Python call does: it returns a value or raises. *)
Inductive outcome (A : Type) : Type :=
| Ok (a : A)
| Raise (e : exn).
Arguments Ok {A} a.
Arguments Raise {A} e.

(** A [datetime] is a number of microseconds since the epoch; the [days]
    attribute of the [timedelta] [later - earlier] is the floor of the
    difference in days (negative when [later] is before [earlier]). *)
Definition microseconds_per_day : Z := 86400000000.

Definition timedelta_days (later earlier : Z) : Z :=
  (later - earlier) / microseconds_per_day.

(** [range(start, stop, step)]: a zero step raises [ValueError]; the
    number of elements is the one CPython computes. *)
Definition py_range (start stop step : Z) : outcome (list Z) :=
  if step =? 0 then Raise (ValueError "range() arg 3 must not be zero")
  else
    let n :=
      if 0 <? step
      then (if start <? stop then (stop - start - 1) / step + 1 else 0)
      else (if stop <? start then (start - stop - 1) / (- step) + 1 else 0) in
    Ok (map (fun k => start + Z.of_nat k * step) (seq 0 (Z.to_nat n))).

(** [l[lo:hi]]: negative bounds count from the end, and both bounds are
    clamped to the list. *)
Definition clamp_index (n i : Z) : Z :=
  if i <? 0 then Z.max (i + n) 0 else Z.min i n.

Definition py_slice {A : Type} (l : list A) (lo hi : Z) : list A :=
  let lo' := clamp_index (len l) lo in
  let hi' := clamp_index (len l) hi in
  firstn (Z.to_nat (hi' - lo')) (skipn (Z.to_nat lo') l).

(** ** Data of the EC2 API *)

Record Tag : Type := { Key : string; Value : string }.

(** A snapshot as [describe_snapshots] returns it.  The [Tags] entry is
    absent from the dictionary of a snapshot that has no tag. *)
Record Snapshot : Type := {
  SnapshotId : string;
  StartTime : Z;
  Tags : option (list Tag)
}.

Record Image : Type := { ImageId : string }.

(** ** Module constants *)

Record Config : Type := {
  SNS_TOPIC_ARN : string;
  SNAPSHOT_RETENTION_DAYS : Z;
  WARNING_DAYS : Z;
  DRY_RUN : bool;
  BATCH_SIZE : Z
}.

(** ** Client calls, log, and the state threaded through the module *)

Inductive Call : Type :=
| DescribeSnapshots
| DescribeImages (snapshot_id : string)
| DeleteSnapshot (snapshot_id : string)
| Publish (topic_arn message : string)
| PutMetricData (metric_name : string).

Inductive Level : Type := INFO | ERROR.

Record State : Type := {
  calls : list Call;
  logs : list (Level * string)
}.

(** The boto3 clients.  Each response may depend on the calls made so
    far; [logs] are invisible to the clients.  The paginator of
    [describe_snapshots] is the list of its pages, each of which is a
    request that may fail. *)
Record Clients : Type := {
  ec2_describe_snapshots : list Call -> list (outcome (list Snapshot));
  ec2_describe_images : list Call -> string -> outcome (list Image);
  ec2_delete_snapshot : list Call -> string -> outcome unit;
  sns_publish : list Call -> string -> string -> outcome unit;
  cloudwatch_put_metric_data : list Call -> string -> outcome unit
}.

(** ** The monad: state survives an exception *)

Definition M (A : Type) : Type := State -> outcome A * State.

Definition ret {A : Type} (a : A) : M A := fun s => (Ok a, s).

Definition bind {A B : Type} (m : M A) (k : A -> M B) : M B :=
  fun s =>
    match m s with
    | (Ok a, s') => k a s'
    | (Raise e, s') => (Raise e, s')
    end.

Definition raise {A : Type} (e : exn) : M A := fun s => (Raise e, s).

(** [try: body except ...]: [handler e] is [Some h] when a clause
    matches the raised exception. *)
Definition try_except {A : Type} (body : M A) (handler : exn -> option (M A)) : M A :=
  fun s =>
    match body s with
    | (Ok a, s') => (Ok a, s')
    | (Raise e, s') =>
        match handler e with
        | Some h => h s'
        | None => (Raise e, s')
        end
    end.

Notation "x <- m ;; k" := (bind m (fun x => k))
  (at level 61, m at next level, right associativity).
Notation "m ;; k" := (bind m (fun _ => k))
  (at level 61, right associativity).

(** [except ClientError as e: h] *)
Definition except_ClientError {A : Type} (h : string -> M A) (e : exn) : option (M A) :=
  match e with
  | ClientError msg => Some (h msg)
  | _ => None
  end.

Definition log (lvl : Level) (msg : string) : M unit :=
  fun s => (Ok tt, {| calls := calls s; logs := (logs s ++ [(lvl, msg)])%list |}).

(** A client call: the response is decided by the history before it, and
    the call is recorded whether it returns or raises. *)
Definition call {A : Type} (c : Call) (response : list Call -> outcome A) : M A :=
  fun s => (response (calls s), {| calls := (calls s ++ [c])%list; logs := logs s |}).

(** [for x in l: body] *)
Fixpoint for_each {A : Type} (l : list A) (body : A -> M unit) : M unit :=
  match l with
  | [] => ret tt
  | x :: rest => body x ;; for_each rest body
  end.

(** ** The module *)

Record Response : Type := { statusCode : Z; body : string }.

Section Handler.

Variable cfg : Config.
Variable aws : Clients.

Definition validate_env_vars : M unit :=
  if (SNS_TOPIC_ARN cfg =? "")%string || (SNAPSHOT_RETENTION_DAYS cfg =? 0)
  then raise (ValueError "Missing required environment variables")
  else if (SNAPSHOT_RETENTION_DAYS cfg <=? 0) || (WARNING_DAYS cfg <? 0)
  then raise (ValueError "Invalid retention or warning days")
  else ret tt.

Fixpoint paginate (pages : list (outcome (list Snapshot)))
    (snapshots : list Snapshot) : M (list Snapshot) :=
  match pages with
  | [] => ret snapshots
  | page :: rest =>
      p <- call DescribeSnapshots (fun _ => page) ;;
      paginate rest (snapshots ++ p)%list
  end.

Definition get_all_snapshots : M (list Snapshot) :=
  fun s => paginate (ec2_describe_snapshots aws (calls s)) [] s.

Definition send_sns_message (message : string) : M unit :=
  try_except
    (call (Publish (SNS_TOPIC_ARN cfg) message)
          (fun h => sns_publish aws h (SNS_TOPIC_ARN cfg) message))
    (except_ClientError
       (fun e => log ERROR ("Failed to send SNS message: " ++ e))).

Definition increment_metric (metric_name : string) : M unit :=
  try_except
    (call (PutMetricData metric_name)
          (fun h => cloudwatch_put_metric_data aws h metric_name))
    (except_ClientError
       (fun e => log ERROR ("Failed to increment metric " ++ metric_name ++ ": " ++ e))).

(** The condition of line 49: a non-empty [Tags] list with a tag whose
    key is the exemption marker. *)
Definition is_exempt (snapshot : Snapshot) : bool :=
  match Tags snapshot with
  | None => false
  | Some [] => false
  | Some tags => existsb (fun tag => (Key tag =? "ExemptFromDeletion")%string) tags
  end.

Definition warning_message (snapshot : Snapshot) (days_until_deletion : Z) : string :=
  if 0 <? days_until_deletion
  then "Snapshot " ++ SnapshotId snapshot ++ " will be deleted in "
       ++ str_of_int days_until_deletion ++ " days."
  else "Snapshot " ++ SnapshotId snapshot ++ " will be deleted today.".

Definition deleted_message (snapshot : Snapshot) : string :=
  (if DRY_RUN cfg then "[DRY RUN] Would have deleted" else "Deleted")
  ++ " snapshot " ++ SnapshotId snapshot ++ " which exceeded retention period.".

Definition in_use_message (snapshot : Snapshot) : string :=
  "Snapshot " ++ SnapshotId snapshot ++ " is in use by AMI(s) and will not be deleted.".

(** The [try] statement of lines 64-77, the body of
    [if days_until_deletion <= 0]. *)
Definition delete_if_unused (snapshot : Snapshot) : M unit :=
  try_except
    (amis <- call (DescribeImages (SnapshotId snapshot))
                  (fun h => ec2_describe_images aws h (SnapshotId snapshot)) ;;
     match amis with
     | [] =>
         (if DRY_RUN cfg then ret tt
          else call (DeleteSnapshot (SnapshotId snapshot))
                    (fun h => ec2_delete_snapshot aws h (SnapshotId snapshot))) ;;
         send_sns_message (deleted_message snapshot) ;;
         increment_metric "SnapshotsDeleted"
     | _ :: _ =>
         send_sns_message (in_use_message snapshot)
     end)
    (except_ClientError
       (fun e =>
          log ERROR ("Error processing snapshot " ++ SnapshotId snapshot ++ ": " ++ e) ;;
          increment_metric "SnapshotProcessingErrors")).

Definition process_snapshot (snapshot : Snapshot) (current_date : Z) : M unit :=
  if is_exempt snapshot
  then log INFO ("Snapshot " ++ SnapshotId snapshot ++ " is exempt from deletion")
  else
    let snapshot_age := timedelta_days current_date (StartTime snapshot) in
    if SNAPSHOT_RETENTION_DAYS cfg <? snapshot_age then
      let days_until_deletion := snapshot_age - SNAPSHOT_RETENTION_DAYS cfg in
      (if days_until_deletion <=? WARNING_DAYS cfg
       then send_sns_message (warning_message snapshot days_until_deletion)
       else ret tt) ;;
      (if days_until_deletion <=? 0
       then delete_if_unused snapshot
       else ret tt)
    else ret tt.

(** The batches the loop of line 81 goes through. *)
Definition batches (snapshots : list Snapshot) : outcome (list (list Snapshot)) :=
  match py_range 0 (len snapshots) (BATCH_SIZE cfg) with
  | Ok starts => Ok (map (fun i => py_slice snapshots i (i + BATCH_SIZE cfg)) starts)
  | Raise e => Raise e
  end.

Definition process_snapshots_in_batches (snapshots : list Snapshot)
    (current_date : Z) : M unit :=
  match batches snapshots with
  | Raise e => raise e
  | Ok bs =>
      for_each bs (fun batch =>
        for_each batch (fun snapshot => process_snapshot snapshot current_date) ;;
        log INFO ("Processed batch of " ++ str_of_int (len batch) ++ " snapshots"))
  end.

(** The snapshots one after the other, with no batching: what
    [process_snapshots_in_batches] is compared with. *)
Definition process_snapshots_sequentially (snapshots : list Snapshot)
    (current_date : Z) : M unit :=
  for_each snapshots (fun snapshot => process_snapshot snapshot current_date).

(** The body of the [try] of [lambda_handler]; [utc_now] is what
    [datetime.datetime.now(datetime.timezone.utc)] returns. *)
Definition handler_body (utc_now : Z) : M Response :=
  validate_env_vars ;;
  let current_date := utc_now in
  snapshots <- get_all_snapshots ;;
  process_snapshots_in_batches snapshots current_date ;;
  log INFO ("Processed " ++ str_of_int (len snapshots) ++ " snapshots") ;;
  increment_metric "SnapshotsProcessed" ;;
  ret {| statusCode := 200; body := "Snapshot cleanup completed successfully!" |}.

Definition lambda_handler (utc_now : Z) : M Response :=
  try_except (handler_body utc_now)
    (fun e =>
       match e with
       | ValueError ve => Some (
           log ERROR ("Validation error: " ++ ve) ;;
           ret {| statusCode := 400; body := "Validation error: " ++ ve |})
       | ClientError ce => Some (
           log ERROR ("AWS API error: " ++ ce) ;;
           increment_metric "AWSAPIErrors" ;;
           ret {| statusCode := 500; body := "An error occurred during AWS API call" |})
       | OtherException e' => Some (
           log ERROR ("An unexpected error occurred: " ++ e') ;;
           increment_metric "UnexpectedErrors" ;;
           ret {| statusCode := 500; body := "An unexpected error occurred" |})
       end).

End Handler.

(** ** The earlier handler, [lambda_hander_old.py] *)

Module Old.

(** The module has two constants and no CloudWatch client; its listing
    is one [describe_snapshots] request, with no paginator.  The
    response of [delete_snapshot] is kept as the text [str] gives of it,
    which is all the handler does with it. *)
Record Config : Type := {
  SNS_TOPIC_ARN : string;
  SNAPSHOT_RETENTION_DAYS : Z
}.

Record Clients : Type := {
  ec2_describe_snapshots : list Call -> outcome (list Snapshot);
  ec2_describe_images : list Call -> string -> outcome (list Image);
  ec2_delete_snapshot : list Call -> string -> outcome string;
  sns_publish : list Call -> string -> string -> outcome unit
}.

Section Handler.

Variable cfg : Config.
Variable aws : Clients.

(** The [try] statement of lines 31-38; [except Exception] catches
    every exception of the model. *)
Definition announce_and_delete (snapshot : Snapshot) (snapshot_age : Z) : M unit :=
  try_except
    (let message := "Deleting snapshot " ++ SnapshotId snapshot ++ " which is "
                    ++ str_of_int snapshot_age ++ " days old." in
     log INFO message ;;
     call (Publish (SNS_TOPIC_ARN cfg) message)
          (fun h => sns_publish aws h (SNS_TOPIC_ARN cfg) message) ;;
     response <- call (DeleteSnapshot (SnapshotId snapshot))
                      (fun h => ec2_delete_snapshot aws h (SnapshotId snapshot)) ;;
     log INFO ("Delete snapshot response: " ++ response))
    (fun e =>
       Some (log ERROR ("Error deleting snapshot " ++ SnapshotId snapshot ++ ": "
                        ++ str_of_exn e))).

(** The body of the loop of lines 24-44. *)
Definition check_snapshot (snapshot : Snapshot) (current_date : Z) : M unit :=
  let snapshot_age := timedelta_days current_date (StartTime snapshot) in
  log INFO ("Checking snapshot " ++ SnapshotId snapshot ++ " which is "
            ++ str_of_int snapshot_age ++ " days old.") ;;
  if SNAPSHOT_RETENTION_DAYS cfg <=? snapshot_age then
    amis <- call (DescribeImages (SnapshotId snapshot))
                 (fun h => ec2_describe_images aws h (SnapshotId snapshot)) ;;
    match amis with
    | [] => announce_and_delete snapshot snapshot_age
    | _ :: _ =>
        let message := "Snapshot " ++ SnapshotId snapshot
                       ++ " is in use by AMI(s) and will not be deleted." in
        log INFO message ;;
        call (Publish (SNS_TOPIC_ARN cfg) message)
             (fun h => sns_publish aws h (SNS_TOPIC_ARN cfg) message)
    end
  else
    log INFO ("Snapshot " ++ SnapshotId snapshot ++ " is not old enough to delete.").

Definition lambda_handler (utc_now : Z) : M Response :=
  let current_date := utc_now in
  snapshots <- call DescribeSnapshots (ec2_describe_snapshots aws) ;;
  log INFO ("Found " ++ str_of_int (len snapshots) ++ " snapshots.") ;;
  for_each snapshots (fun snapshot => check_snapshot snapshot current_date) ;;
  ret {| statusCode := 200; body := "Snapshot cleanup completed successfully!" |}.

End Handler.

End Old.

(** ** Sample data *)

Definition day (n : Z) : Z := n * microseconds_per_day.

Definition sample_cfg : Config :=
  {| SNS_TOPIC_ARN := "arn:aws:sns:us-east-1:123456789012:snapshots";
     SNAPSHOT_RETENTION_DAYS := 30;
     WARNING_DAYS := 5;
     DRY_RUN := false;
     BATCH_SIZE := 100 |}.

Definition snap (id : string) (start : Z) : Snapshot :=
  {| SnapshotId := id; StartTime := start; Tags := None |}.

(** Every request succeeds; no AMI refers to any snapshot. *)
Definition quiet_aws (snapshots : list Snapshot) : Clients :=
  {| ec2_describe_snapshots := fun _ => [Ok snapshots];
     ec2_describe_images := fun _ _ => Ok [];
     ec2_delete_snapshot := fun _ _ => Ok tt;
     sns_publish := fun _ _ _ => Ok tt;
     cloudwatch_put_metric_data := fun _ _ => Ok tt |}.

Definition start_state : State := {| calls := []; logs := [] |}.

Definition sample_cfg_dry_run : Config :=
  {| SNS_TOPIC_ARN := SNS_TOPIC_ARN sample_cfg;
     SNAPSHOT_RETENTION_DAYS := 30;
     WARNING_DAYS := 5;
     DRY_RUN := true;
     BATCH_SIZE := 100 |}.

Definition exempt_snap (id : string) (start : Z) : Snapshot :=
  {| SnapshotId := id; StartTime := start;
     Tags := Some [ {| Key := "Name"; Value := "db" |};
                    {| Key := "ExemptFromDeletion"; Value := "true" |} ] |}.

(** Some AMI refers to every snapshot. *)
Definition in_use_aws : Clients :=
  {| ec2_describe_snapshots := fun _ => [Ok []];
     ec2_describe_images := fun _ _ => Ok [ {| ImageId := "ami-0abc" |} ];
     ec2_delete_snapshot := fun _ _ => Ok tt;
     sns_publish := fun _ _ _ => Ok tt;
     cloudwatch_put_metric_data := fun _ _ => Ok tt |}.

(** The image lookup is refused by EC2 with a [ClientError]. *)
Definition throttled_aws : Clients :=
  {| ec2_describe_snapshots := fun _ => [Ok []];
     ec2_describe_images := fun _ _ => Raise (ClientError "RequestLimitExceeded");
     ec2_delete_snapshot := fun _ _ => Ok tt;
     sns_publish := fun _ _ _ => Ok tt;
     cloudwatch_put_metric_data := fun _ _ => Ok tt |}.

(** The listing is refused by EC2 with a [ClientError]. *)
Definition denied_listing_aws : Clients :=
  {| ec2_describe_snapshots := fun _ => [Raise (ClientError "UnauthorizedOperation")];
     ec2_describe_images := fun _ _ => Ok [];
     ec2_delete_snapshot := fun _ _ => Ok tt;
     sns_publish := fun _ _ _ => Ok tt;
     cloudwatch_put_metric_data := fun _ _ => Ok tt |}.

(** No endpoint can be reached: every request raises
    [EndpointConnectionError]. *)
Definition offline_aws : Clients :=
  {| ec2_describe_snapshots := fun _ => [Raise (OtherException "EndpointConnectionError")];
     ec2_describe_images := fun _ _ => Raise (OtherException "EndpointConnectionError");
     ec2_delete_snapshot := fun _ _ => Raise (OtherException "EndpointConnectionError");
     sns_publish := fun _ _ _ => Raise (OtherException "EndpointConnectionError");
     cloudwatch_put_metric_data := fun _ _ => Raise (OtherException "EndpointConnectionError") |}.

Definition zero_retention_cfg : Config :=
  {| SNS_TOPIC_ARN := SNS_TOPIC_ARN sample_cfg;
     SNAPSHOT_RETENTION_DAYS := 0;
     WARNING_DAYS := 5;
     DRY_RUN := false;
     BATCH_SIZE := 100 |}.

(** The listing comes in two pages; every request succeeds. *)
Definition two_page_aws (page1 page2 : list Snapshot) : Clients :=
  {| ec2_describe_snapshots := fun _ => [Ok page1; Ok page2];
     ec2_describe_images := fun _ _ => Ok [];
     ec2_delete_snapshot := fun _ _ => Ok tt;
     sns_publish := fun _ _ _ => Ok tt;
     cloudwatch_put_metric_data := fun _ _ => Ok tt |}.

(** The second page of the listing is refused. *)
Definition second_page_denied_aws (page1 : list Snapshot) : Clients :=
  {| ec2_describe_snapshots :=
       fun _ => [Ok page1; Raise (ClientError "RequestLimitExceeded"); Ok []];
     ec2_describe_images := fun _ _ => Ok [];
     ec2_delete_snapshot := fun _ _ => Ok tt;
     sns_publish := fun _ _ _ => Ok tt;
     cloudwatch_put_metric_data := fun _ _ => Ok tt |}.

(** No AMI refers to any snapshot, and the deletion is refused. *)
Definition delete_denied_aws : Clients :=
  {| ec2_describe_snapshots := fun _ => [Ok []];
     ec2_describe_images := fun _ _ => Ok [];
     ec2_delete_snapshot := fun _ _ => Raise (ClientError "UnauthorizedOperation");
     sns_publish := fun _ _ _ => Ok tt;
     cloudwatch_put_metric_data := fun _ _ => Ok tt |}.

Definition zero_batch_cfg : Config :=
  {| SNS_TOPIC_ARN := SNS_TOPIC_ARN sample_cfg;
     SNAPSHOT_RETENTION_DAYS := 30;
     WARNING_DAYS := 5;
     DRY_RUN := false;
     BATCH_SIZE := 0 |}.

Definition negative_batch_cfg : Config :=
  {| SNS_TOPIC_ARN := SNS_TOPIC_ARN sample_cfg;
     SNAPSHOT_RETENTION_DAYS := 30;
     WARNING_DAYS := 5;
     DRY_RUN := false;
     BATCH_SIZE := -10 |}.

(** The listing returns [snapshots]; some AMI refers to each of them. *)
Definition in_use_listing_aws (snapshots : list Snapshot) : Clients :=
  {| ec2_describe_snapshots := fun _ => [Ok snapshots];
     ec2_describe_images := fun _ _ => Ok [ {| ImageId := "ami-0abc" |} ];
     ec2_delete_snapshot := fun _ _ => Ok tt;
     sns_publish := fun _ _ _ => Ok tt;
     cloudwatch_put_metric_data := fun _ _ => Ok tt |}.


Definition old_cfg : Old.Config :=
  {| Old.SNS_TOPIC_ARN := SNS_TOPIC_ARN sample_cfg;
     Old.SNAPSHOT_RETENTION_DAYS := 30 |}.

(** Clients of the earlier handler: every request succeeds and no AMI
    refers to any snapshot. *)
Definition old_quiet_aws (snapshots : list Snapshot) : Old.Clients :=
  {| Old.ec2_describe_snapshots := fun _ => Ok snapshots;
     Old.ec2_describe_images := fun _ _ => Ok [];
     Old.ec2_delete_snapshot := fun _ _ => Ok "{}";
     Old.sns_publish := fun _ _ _ => Ok tt |}.

(** Some AMI refers to every snapshot. *)
Definition old_in_use_aws (snapshots : list Snapshot) : Old.Clients :=
  {| Old.ec2_describe_snapshots := fun _ => Ok snapshots;
     Old.ec2_describe_images := fun _ _ => Ok [ {| ImageId := "ami-0abc" |} ];
     Old.ec2_delete_snapshot := fun _ _ => Ok "{}";
     Old.sns_publish := fun _ _ _ => Ok tt |}.

(** The image lookup is refused. *)
Definition old_throttled_aws (snapshots : list Snapshot) : Old.Clients :=
  {| Old.ec2_describe_snapshots := fun _ => Ok snapshots;
     Old.ec2_describe_images := fun _ _ => Raise (ClientError "RequestLimitExceeded");
     Old.ec2_delete_snapshot := fun _ _ => Ok "{}";
     Old.sns_publish := fun _ _ _ => Ok tt |}.

(** The notification is refused. *)
Definition old_no_sns_aws (snapshots : list Snapshot) : Old.Clients :=
  {| Old.ec2_describe_snapshots := fun _ => Ok snapshots;
     Old.ec2_describe_images := fun _ _ => Ok [];
     Old.ec2_delete_snapshot := fun _ _ => Ok "{}";
     Old.sns_publish := fun _ _ _ => Raise (ClientError "AuthorizationError") |}.

(** ** Specification vocabulary *)

(** The metrics client fails with [ClientError] or not at all. *)
Definition metrics_fail_with_ClientError_only (aws : Clients) : Prop :=
  forall h metric_name e,
    cloudwatch_put_metric_data aws h metric_name = Raise e ->
    exists msg, e = ClientError msg.

(** The image lookup for [snapshot], or the deletion that follows an
    empty lookup, is refused with [ClientError msg]; [made] are the EC2
    calls made up to the refusal. *)
Definition lookup_or_deletion_fails (cfg : Config) (aws : Clients)
    (snapshot : Snapshot) (s : State) (made : list Call) (msg : string) : Prop :=
  (made = [DescribeImages (SnapshotId snapshot)]
   /\ ec2_describe_images aws (calls s) (SnapshotId snapshot) = Raise (ClientError msg))
  \/
  (made = [DescribeImages (SnapshotId snapshot); DeleteSnapshot (SnapshotId snapshot)]
   /\ DRY_RUN cfg = false
   /\ ec2_describe_images aws (calls s) (SnapshotId snapshot) = Ok []
   /\ ec2_delete_snapshot aws (calls s ++ [DescribeImages (SnapshotId snapshot)])%list
        (SnapshotId snapshot) = Raise (ClientError msg)).


(** A snapshot carries the exemption marker: some tag has the key
    [ExemptFromDeletion]. *)
Definition exempt (snapshot : Snapshot) : Prop :=
  exists tags tag,
    Tags snapshot = Some tags /\ In tag tags /\ Key tag = "ExemptFromDeletion".

(** Age of a snapshot in whole days, and the days it is over retention. *)
Definition age_days (snapshot : Snapshot) (current_date : Z) : Z :=
  timedelta_days current_date (StartTime snapshot).

Definition days_over (cfg : Config) (snapshot : Snapshot) (current_date : Z) : Z :=
  age_days snapshot current_date - SNAPSHOT_RETENTION_DAYS cfg.

(** The calls that delete a snapshot or report a deletion. *)
Definition is_delete (c : Call) : bool :=
  match c with
  | DeleteSnapshot _ => true
  | _ => false
  end.

Definition is_publish (c : Call) : bool :=
  match c with
  | Publish _ _ => true
  | _ => false
  end.

(** Two runs agree on everything the clients can observe. *)
Definition same_run {A : Type} (r1 r2 : outcome A * State) : Prop :=
  fst r1 = fst r2 /\ calls (snd r1) = calls (snd r2).

(** A computation whose result and calls do not depend on the log. *)
Definition log_blind {A : Type} (m : M A) : Prop :=
  forall s1 s2, calls s1 = calls s2 -> same_run (m s1) (m s2).

(** The configurations [validate_env_vars] lets through. *)
Definition valid_config (cfg : Config) : Prop :=
  SNS_TOPIC_ARN cfg <> ""%string
  /\ 0 < SNAPSHOT_RETENTION_DAYS cfg
  /\ 0 <= WARNING_DAYS cfg.

(** The snapshots a run warns about, and the call that warns. *)
Definition in_warning_window (cfg : Config) (current_date : Z) (snapshot : Snapshot) : bool :=
  negb (is_exempt snapshot)
  && (1 <=? days_over cfg snapshot current_date)
  && (days_over cfg snapshot current_date <=? WARNING_DAYS cfg).

Definition warning_call (cfg : Config) (current_date : Z) (snapshot : Snapshot) : Call :=
  Publish (SNS_TOPIC_ARN cfg)
    ("Snapshot " ++ SnapshotId snapshot ++ " will be deleted in "
     ++ str_of_int (days_over cfg snapshot current_date) ++ " days.").

(** The notification client fails with [ClientError] or not at all. *)
Definition publish_fails_with_ClientError_only (aws : Clients) : Prop :=
  forall h topic message e,
    sns_publish aws h topic message = Raise e ->
    exists msg, e = ClientError msg.

Definition is_image_lookup (c : Call) : bool :=
  match c with
  | DescribeImages _ => true
  | _ => false
  end.

(** Whatever the state, the calls the computation adds all satisfy [P]. *)
Definition adds_only {A : Type} (P : Call -> Prop) (m : M A) : Prop :=
  forall s, exists added,
    calls (snd (m s)) = (calls s ++ added)%list /\ Forall P added.

(** Number of batches of [size] that hold [n] elements. *)
Definition batch_count (n size : Z) : Z := (n + size - 1) / size.

(** * Properties *)

(** ** Strings *)

Lemma string_app_assoc (a b c : string) :
  ((a ++ b) ++ c = a ++ (b ++ c))%string.
Proof.
  induction a as [|ch a IH]; simpl; [reflexivity | now rewrite IH].
Qed.

Lemma string_length_app (a b : string) :
  String.length (a ++ b) = (String.length a + String.length b)%nat.
Proof.
  induction a as [|ch a IH]; simpl; [reflexivity | now rewrite IH].
Qed.

(** Two strings with suffixes of one length that are equal have equal
    suffixes. *)
Lemma string_app_suffix (a a' b b' : string) :
  String.length b = String.length b' ->
  (a ++ b = a' ++ b')%string -> b = b'.
Proof.
  revert a'.
  induction a as [|ch a IH]; intros [|ch' a'] Hlen Heq; simpl in Heq.
  - exact Heq.
  - apply (f_equal String.length) in Heq. simpl in Heq.
    rewrite string_length_app in Heq. lia.
  - apply (f_equal String.length) in Heq. simpl in Heq.
    rewrite string_length_app in Heq. lia.
  - injection Heq as _ Heq. now apply (IH a').
Qed.

(** No "will be deleted in N days" text is a "will be deleted today"
    text, whatever the snapshot identifiers. *)
Lemma in_days_is_not_today (id id' n : string) :
  ("Snapshot " ++ id ++ " will be deleted in " ++ n ++ " days."
   <> "Snapshot " ++ id' ++ " will be deleted today.")%string.
Proof.
  intro Heq.
  change ("Snapshot " ++ id' ++ " will be deleted today.")%string
    with ("Snapshot " ++ id' ++ " will be deleted " ++ "today.")%string in Heq.
  rewrite <- !string_app_assoc in Heq.
  apply string_app_suffix in Heq; [discriminate | reflexivity].
Qed.

(** ** The exemption test *)

Lemma is_exempt_spec (snapshot : Snapshot) :
  is_exempt snapshot = true <-> exempt snapshot.
Proof.
  unfold is_exempt, exempt.
  destruct (Tags snapshot) as [tags|].
  - assert (Hex : existsb (fun tag => (Key tag =? "ExemptFromDeletion")%string) tags = true
                  <-> exists tag, In tag tags /\ Key tag = "ExemptFromDeletion").
    { rewrite existsb_exists. split; intros [tag [Hin Hk]]; exists tag; split; auto.
      - now apply String.eqb_eq.
      - now apply String.eqb_eq. }
    destruct tags as [|t tags'].
    + split; [discriminate|]. intros (tags & tag & Heq & Hin & _).
      injection Heq as <-. destruct Hin.
    + rewrite Hex. split.
      * intros [tag [Hin Hk]]. now exists (t :: tags'), tag.
      * intros (tags & tag & Heq & Hin & Hk). injection Heq as <-. now exists tag.
  - split; [discriminate|]. intros (tags & tag & Heq & _). discriminate.
Qed.

Lemma not_exempt_spec (snapshot : Snapshot) :
  is_exempt snapshot = false <-> ~ exempt snapshot.
Proof.
  rewrite <- is_exempt_spec. destruct (is_exempt snapshot); split; congruence.
Qed.

(** ** Lists, ranges and slices *)

Lemma firstn_plus {A : Type} (a c : nat) (l : list A) :
  firstn (a + c) l = (firstn a l ++ firstn c (skipn a l))%list.
Proof.
  revert l. induction a as [|a IH]; intros [|x l]; simpl.
  - reflexivity.
  - reflexivity.
  - now rewrite firstn_nil.
  - now rewrite IH.
Qed.

(** Consecutive chunks of [b] elements, [m] of them from the [k]-th on,
    are a stretch of [m * b] elements. *)
Lemma concat_chunks {A : Type} (b : nat) (l : list A) (m k : nat) :
  concat (map (fun j => firstn b (skipn (j * b) l)) (seq k m))
  = firstn (m * b) (skipn (k * b) l).
Proof.
  revert k. induction m as [|m IH]; intro k; simpl.
  - reflexivity.
  - rewrite IH, firstn_plus, skipn_skipn. reflexivity.
Qed.

(** A slice that starts at a valid offset and asks for [size] elements. *)
Lemma py_slice_chunk {A : Type} (l : list A) (i size : Z) :
  0 <= i -> 0 < size ->
  py_slice l i (i + size) = firstn (Z.to_nat size) (skipn (Z.to_nat i) l).
Proof.
  intros Hi Hsize. unfold py_slice, clamp_index, len.
  destruct (Z.ltb_spec i 0); [lia|].
  destruct (Z.ltb_spec (i + size) 0); [lia|].
  destruct (Z_lt_le_dec (Z.of_nat (length l)) i) as [Hout | Hin].
  - rewrite !Z.min_r by lia.
    rewrite Z.sub_diag. simpl.
    rewrite (skipn_all2 l (n := Z.to_nat i)) by lia.
    now rewrite firstn_nil.
  - rewrite (Z.min_l i) by lia.
    destruct (Z_le_gt_dec (i + size) (Z.of_nat (length l))) as [Hfull | Hshort].
    + rewrite Z.min_l by lia. f_equal. lia.
    + rewrite Z.min_r by lia.
      rewrite !firstn_all2; [reflexivity | |]; rewrite length_skipn; lia.
Qed.

(** ** Computations that ignore the log *)

Lemma log_blind_ret {A : Type} (a : A) : log_blind (ret a).
Proof. intros s1 s2 H. split; [reflexivity | exact H]. Qed.

Lemma log_blind_raise {A : Type} (e : exn) : log_blind (@raise A e).
Proof. intros s1 s2 H. split; [reflexivity | exact H]. Qed.

Lemma log_blind_log (lvl : Level) (msg : string) : log_blind (log lvl msg).
Proof. intros s1 s2 H. split; [reflexivity | exact H]. Qed.

Lemma log_blind_call {A : Type} (c : Call) (response : list Call -> outcome A) :
  log_blind (call c response).
Proof. intros s1 s2 H. unfold call, same_run. simpl. now rewrite H. Qed.

Lemma log_blind_bind {A B : Type} (m : M A) (k : A -> M B) :
  log_blind m -> (forall a, log_blind (k a)) -> log_blind (bind m k).
Proof.
  intros Hm Hk s1 s2 H. unfold bind.
  destruct (Hm s1 s2 H) as [Hr Hc].
  destruct (m s1) as [[a1|e1] s1'], (m s2) as [[a2|e2] s2']; simpl in Hr, Hc;
    try discriminate.
  - injection Hr as <-. now apply Hk.
  - split; simpl; congruence.
Qed.

Lemma log_blind_try {A : Type} (body : M A) (handler : exn -> option (M A)) :
  log_blind body ->
  (forall e h, handler e = Some h -> log_blind h) ->
  log_blind (try_except body handler).
Proof.
  intros Hb Hh s1 s2 H. unfold try_except.
  destruct (Hb s1 s2 H) as [Hr Hc].
  destruct (body s1) as [[a1|e1] s1'], (body s2) as [[a2|e2] s2']; simpl in Hr, Hc;
    try discriminate.
  - split; simpl; congruence.
  - injection Hr as <-.
    destruct (handler e1) as [h|] eqn:Hcatch.
    + now apply (Hh e1 h Hcatch).
    + split; simpl; [reflexivity | assumption].
Qed.

Lemma log_blind_except_ClientError {A : Type} (h : string -> M A) :
  (forall msg, log_blind (h msg)) ->
  forall e h', except_ClientError h e = Some h' -> log_blind h'.
Proof.
  intros Hh [m|m|m] h' Heq; simpl in Heq; try discriminate.
  injection Heq as <-. apply Hh.
Qed.

Lemma log_blind_for_each {A : Type} (l : list A) (body : A -> M unit) :
  (forall x, log_blind (body x)) -> log_blind (for_each l body).
Proof.
  intro Hb. induction l as [|x l IH]; simpl.
  - apply log_blind_ret.
  - apply log_blind_bind; auto.
Qed.

Lemma for_each_app {A : Type} (l1 l2 : list A) (body : A -> M unit) (s : State) :
  for_each (l1 ++ l2) body s = (for_each l1 body ;; for_each l2 body) s.
Proof.
  revert s. induction l1 as [|x l1 IH]; intro s; simpl.
  - reflexivity.
  - unfold bind in *. destruct (body x s) as [[u|e] s']; [apply IH | reflexivity].
Qed.

(** A loop over batches that writes a log line after each batch makes
    the calls of the plain loop over all the elements. *)
Lemma batched_loop_same_run {A : Type} (body : A -> M unit)
    (line : list A -> string) (bs : list (list A)) :
  (forall x, log_blind (body x)) ->
  forall s1 s2, calls s1 = calls s2 ->
  same_run
    (for_each bs (fun batch => for_each batch body ;; log INFO (line batch)) s1)
    (for_each (concat bs) body s2).
Proof.
  intro Hb. induction bs as [|b bs IH]; intros s1 s2 H; simpl.
  - split; [reflexivity | exact H].
  - rewrite for_each_app. unfold bind.
    destruct (log_blind_for_each b body Hb s1 s2 H) as [Hr Hc].
    destruct (for_each b body s1) as [[u1|e1] s1'], (for_each b body s2) as [[u2|e2] s2'];
      simpl in Hr, Hc; try discriminate.
    + apply IH. exact Hc.
    + split; simpl; congruence.
Qed.

#[local] Arguments String.append : simpl never.

Ltac exists_added Hc :=
  eexists; split; [exact Hc | reflexivity].

Section Properties.

Variable cfg : Config.
Variable aws : Clients.

(** ** Notifications and metrics *)

Lemma send_sns_message_calls (message : string) (s : State) :
  calls (snd (send_sns_message cfg aws message s))
  = (calls s ++ [Publish (SNS_TOPIC_ARN cfg) message])%list.
Proof.
  unfold send_sns_message, try_except, call. simpl.
  destruct (sns_publish aws (calls s) (SNS_TOPIC_ARN cfg) message) as [u|[m|m|m]];
    reflexivity.
Qed.

Lemma increment_metric_calls (metric_name : string) (s : State) :
  calls (snd (increment_metric aws metric_name s))
  = (calls s ++ [PutMetricData metric_name])%list.
Proof.
  unfold increment_metric, try_except, call. simpl.
  destruct (cloudwatch_put_metric_data aws (calls s) metric_name) as [u|[m|m|m]];
    reflexivity.
Qed.

(** Neither helper lets a [ClientError] out. *)
Lemma send_sns_message_no_ClientError (message : string) (s : State) (msg : string) :
  fst (send_sns_message cfg aws message s) <> Raise (ClientError msg).
Proof.
  unfold send_sns_message, try_except, call. simpl.
  destruct (sns_publish aws (calls s) (SNS_TOPIC_ARN cfg) message) as [u|[m|m|m]];
    simpl; discriminate.
Qed.

Lemma increment_metric_no_ClientError (metric_name : string) (s : State) (msg : string) :
  fst (increment_metric aws metric_name s) <> Raise (ClientError msg).
Proof.
  unfold increment_metric, try_except, call. simpl.
  destruct (cloudwatch_put_metric_data aws (calls s) metric_name) as [u|[m|m|m]];
    simpl; discriminate.
Qed.

(** ** [process_snapshot] *)

(** The guard of the deletion block is never true inside the
    over-retention branch. *)
Lemma deletion_guard_unreachable (snapshot : Snapshot) (current_date : Z) :
  (SNAPSHOT_RETENTION_DAYS cfg <? age_days snapshot current_date)
  && (days_over cfg snapshot current_date <=? 0) = false.
Proof.
  unfold days_over.
  destruct (Z.ltb_spec (SNAPSHOT_RETENTION_DAYS cfg) (age_days snapshot current_date));
    [|reflexivity].
  simpl. apply Z.leb_gt. lia.
Qed.

(** All [process_snapshot] ever does: log the exemption, nothing, or one
    warning that counts the days over retention. *)
Lemma process_snapshot_cases (snapshot : Snapshot) (current_date : Z) (s : State) :
  let d := days_over cfg snapshot current_date in
  process_snapshot cfg aws snapshot current_date s =
    if is_exempt snapshot
    then log INFO ("Snapshot " ++ SnapshotId snapshot ++ " is exempt from deletion") s
    else if (1 <=? d) && (d <=? WARNING_DAYS cfg)
    then (send_sns_message cfg aws
            ("Snapshot " ++ SnapshotId snapshot ++ " will be deleted in "
             ++ str_of_int d ++ " days.") ;; ret tt) s
    else (Ok tt, s).
Proof.
  intro d. unfold process_snapshot.
  destruct (is_exempt snapshot); [reflexivity|].
  fold (age_days snapshot current_date). fold (days_over cfg snapshot current_date).
  fold d.
  pose proof (deletion_guard_unreachable snapshot current_date) as Hguard. fold d in Hguard.
  destruct (Z.ltb_spec (SNAPSHOT_RETENTION_DAYS cfg) (age_days snapshot current_date))
    as [Hover|Hyoung].
  - simpl in Hguard. rewrite Hguard.
    assert (H1 : (1 <=? d) = true) by (apply Z.leb_le; unfold d, days_over; lia).
    rewrite H1. simpl.
    destruct (d <=? WARNING_DAYS cfg).
    + unfold warning_message.
      assert (H0 : (0 <? d) = true) by (apply Z.ltb_lt; unfold d, days_over; lia).
      rewrite H0. reflexivity.
    + reflexivity.
  - assert (H1 : (1 <=? d) = false) by (apply Z.leb_gt; unfold d, days_over; lia).
    rewrite H1. reflexivity.
Qed.

(** The calls of [process_snapshot]: none, or the one warning. *)
Lemma process_snapshot_calls (snapshot : Snapshot) (current_date : Z) (s : State) :
  exists added,
    calls (snd (process_snapshot cfg aws snapshot current_date s)) = (calls s ++ added)%list
    /\ (added = []
        \/ added = [Publish (SNS_TOPIC_ARN cfg)
                      ("Snapshot " ++ SnapshotId snapshot ++ " will be deleted in "
                       ++ str_of_int (days_over cfg snapshot current_date) ++ " days.")]).
Proof.
  rewrite process_snapshot_cases.
  destruct (is_exempt snapshot).
  - exists []. simpl. rewrite app_nil_r. auto.
  - destruct ((1 <=? days_over cfg snapshot current_date)
              && (days_over cfg snapshot current_date <=? WARNING_DAYS cfg)).
    + eexists. split; [|right; reflexivity].
      unfold bind.
      pose proof (send_sns_message_calls
        ("Snapshot " ++ SnapshotId snapshot ++ " will be deleted in "
         ++ str_of_int (days_over cfg snapshot current_date) ++ " days.") s) as Hc.
      destruct (send_sns_message cfg aws _ s) as [[u|e] s']; simpl in *; exact Hc.
    + exists []. simpl. rewrite app_nil_r. auto.
Qed.

(** C2: [process_snapshot] never calls [delete_snapshot], never
    increments [SnapshotsDeleted] and never publishes a "will be deleted
    today" text: inside the over-retention branch [days_until_deletion]
    is at least 1, so the guard [days_until_deletion <= 0] of the
    deletion block is false there. *)
Theorem process_snapshot_never_deletes
    (snapshot : Snapshot) (current_date : Z) (s : State) :
  implb (SNAPSHOT_RETENTION_DAYS cfg <? age_days snapshot current_date)
        (1 <=? days_over cfg snapshot current_date) = true
  /\ (SNAPSHOT_RETENTION_DAYS cfg <? age_days snapshot current_date)
     && (days_over cfg snapshot current_date <=? 0) = false
  /\ exists added,
       calls (snd (process_snapshot cfg aws snapshot current_date s))
       = (calls s ++ added)%list
       /\ Forall (fun c =>
             is_delete c = false
             /\ c <> PutMetricData "SnapshotsDeleted"
             /\ forall topic id,
                  c <> Publish topic ("Snapshot " ++ id ++ " will be deleted today."))
           added.
Proof.
  split; [|split].
  - unfold days_over.
    destruct (Z.ltb_spec (SNAPSHOT_RETENTION_DAYS cfg) (age_days snapshot current_date));
      [|reflexivity].
    simpl. apply Z.leb_le. lia.
  - apply deletion_guard_unreachable.
  - rewrite process_snapshot_cases.
    destruct (is_exempt snapshot).
    + exists []. simpl. rewrite app_nil_r. split; [reflexivity | constructor].
    + destruct ((1 <=? days_over cfg snapshot current_date)
                && (days_over cfg snapshot current_date <=? WARNING_DAYS cfg)).
      * exists [Publish (SNS_TOPIC_ARN cfg)
                  ("Snapshot " ++ SnapshotId snapshot ++ " will be deleted in "
                   ++ str_of_int (days_over cfg snapshot current_date) ++ " days.")].
        split.
        -- unfold bind.
           pose proof (send_sns_message_calls
             ("Snapshot " ++ SnapshotId snapshot ++ " will be deleted in "
              ++ str_of_int (days_over cfg snapshot current_date) ++ " days.") s) as Hc.
           destruct (send_sns_message cfg aws _ s) as [[u|e] s']; simpl in *; exact Hc.
        -- constructor; [|constructor].
           split; [reflexivity|]. split; [discriminate|].
           intros topic id Heq.
           apply (in_days_is_not_today (SnapshotId snapshot) id
                    (str_of_int (days_over cfg snapshot current_date))).
           congruence.
      * exists []. simpl. rewrite app_nil_r. split; [reflexivity | constructor].
Qed.

(** C3: a snapshot that is not exempt and is between 1 and
    [WARNING_DAYS] days over retention gets exactly one call, the
    publication of its warning; no image lookup and no deletion is
    made for it.  The case of one day over retention is an instance. *)
Theorem warning_window_one_warning
    (snapshot : Snapshot) (current_date : Z) (s : State) :
  ~ exempt snapshot ->
  1 <= days_over cfg snapshot current_date <= WARNING_DAYS cfg ->
  calls (snd (process_snapshot cfg aws snapshot current_date s))
  = (calls s ++
     [Publish (SNS_TOPIC_ARN cfg)
        ("Snapshot " ++ SnapshotId snapshot ++ " will be deleted in "
         ++ str_of_int (days_over cfg snapshot current_date) ++ " days.")])%list.
Proof.
  intros Hne [Hlo Hhi].
  rewrite process_snapshot_cases.
  apply not_exempt_spec in Hne. rewrite Hne.
  apply Z.leb_le in Hlo, Hhi. rewrite Hlo, Hhi. simpl.
  unfold bind.
  pose proof (send_sns_message_calls
    ("Snapshot " ++ SnapshotId snapshot ++ " will be deleted in "
     ++ str_of_int (days_over cfg snapshot current_date) ++ " days.") s) as Hc.
  destruct (send_sns_message cfg aws _ s) as [[u|e] s']; simpl in *; exact Hc.
Qed.

(** C4: a snapshot with a tag whose key is [ExemptFromDeletion] is left
    alone whatever its age: the function returns at once, having made
    no client call (no notification, no image lookup, no deletion, no
    metric) and written one line to the log. *)
Theorem exempt_snapshot_untouched
    (snapshot : Snapshot) (current_date : Z) (s : State) :
  exempt snapshot ->
  process_snapshot cfg aws snapshot current_date s
  = (Ok tt,
     {| calls := calls s;
        logs := (logs s ++
                 [(INFO, ("Snapshot " ++ SnapshotId snapshot
                          ++ " is exempt from deletion")%string)])%list |}).
Proof.
  intro Hex. apply is_exempt_spec in Hex.
  unfold process_snapshot. rewrite Hex. reflexivity.
Qed.

(** C5: a snapshot that is not exempt and whose age in whole days is at
    most [SNAPSHOT_RETENTION_DAYS] is too young: [process_snapshot]
    returns without any client call and leaves the state as it was. *)
Theorem young_snapshot_untouched
    (snapshot : Snapshot) (current_date : Z) (s : State) :
  ~ exempt snapshot ->
  age_days snapshot current_date <= SNAPSHOT_RETENTION_DAYS cfg ->
  process_snapshot cfg aws snapshot current_date s = (Ok tt, s).
Proof.
  intros Hne Hage. apply not_exempt_spec in Hne.
  rewrite process_snapshot_cases. rewrite Hne.
  assert (H1 : (1 <=? days_over cfg snapshot current_date) = false)
    by (apply Z.leb_gt; unfold days_over; lia).
  rewrite H1. reflexivity.
Qed.

(** ** The deletion block and the handler *)

Lemma increment_metric_returns (metric_name : string) (s : State) :
  metrics_fail_with_ClientError_only aws ->
  fst (increment_metric aws metric_name s) = Ok tt.
Proof.
  intro Hm. unfold increment_metric, try_except, call. simpl.
  destruct (cloudwatch_put_metric_data aws (calls s) metric_name) as [u|e] eqn:Hr.
  - destruct u. reflexivity.
  - destruct (Hm _ _ _ Hr) as [msg ->]. reflexivity.
Qed.

(** What [increment_metric] leaves behind when it does not return. *)
Lemma increment_metric_raises (metric_name : string) (s : State) (e : exn) :
  fst (increment_metric aws metric_name s) = Raise e ->
  cloudwatch_put_metric_data aws (calls s) metric_name = Raise e
  /\ forall msg, e <> ClientError msg.
Proof.
  unfold increment_metric, try_except, call. simpl.
  destruct (cloudwatch_put_metric_data aws (calls s) metric_name) as [u|[m|m|m]];
    simpl; intro H; try discriminate; injection H as <-; split;
    try reflexivity; intros msg; discriminate.
Qed.

Lemma increment_metric_logs (metric_name : string) (s : State) :
  exists tail, logs (snd (increment_metric aws metric_name s)) = (logs s ++ tail)%list.
Proof.
  unfold increment_metric, try_except, call. simpl.
  destruct (cloudwatch_put_metric_data aws (calls s) metric_name) as [u|[m|m|m]]; simpl;
    try (exists []; now rewrite app_nil_r).
  eexists. reflexivity.
Qed.

(** The successful result of the handler's body is always the 200
    response. *)
Lemma handler_body_returns (utc_now : Z) (s s' : State) (r : Response) :
  handler_body cfg aws utc_now s = (Ok r, s') ->
  r = {| statusCode := 200; body := "Snapshot cleanup completed successfully!" |}.
Proof.
  unfold handler_body, bind, ret.
  destruct (validate_env_vars cfg s) as [[u|e] s1]; [|discriminate].
  destruct (get_all_snapshots aws s1) as [[snapshots|e] s2]; [|discriminate].
  destruct (process_snapshots_in_batches cfg aws snapshots utc_now s2) as [[u2|e] s3];
    [|discriminate].
  destruct (log INFO _ s3) as [[u3|e] s4]; [|discriminate].
  destruct (increment_metric aws "SnapshotsProcessed" s4) as [[u4|e] s5]; [|discriminate].
  intro H. now injection H as <- _.
Qed.

(** The deletion block, when its image lookup returns at least one
    image, makes no [delete_snapshot] call, whatever [DRY_RUN] is:
    after the lookup it publishes the "in use ... will not be deleted"
    text and nothing else.  And whatever the age of the snapshot,
    [process_snapshot] makes no [delete_snapshot] call. *)
Theorem referenced_snapshot_is_kept
    (snapshot : Snapshot) (current_date : Z) (s : State)
    (image : Image) (images : list Image) :
  ec2_describe_images aws (calls s) (SnapshotId snapshot) = Ok (image :: images) ->
  calls (snd (delete_if_unused cfg aws snapshot s))
  = (calls s ++
     [DescribeImages (SnapshotId snapshot);
      Publish (SNS_TOPIC_ARN cfg)
        ("Snapshot " ++ SnapshotId snapshot
         ++ " is in use by AMI(s) and will not be deleted.")])%list
  /\ exists added,
       calls (snd (process_snapshot cfg aws snapshot current_date s))
       = (calls s ++ added)%list
       /\ existsb is_delete added = false.
Proof.
  intro Himg. split.
  - unfold delete_if_unused, try_except, bind, call. simpl. rewrite Himg.
    pose proof (send_sns_message_calls (in_use_message snapshot)
                  {| calls := (calls s ++ [DescribeImages (SnapshotId snapshot)])%list;
                     logs := logs s |}) as Hc.
    simpl in Hc. rewrite <- app_assoc in Hc. simpl in Hc.
    pose proof (send_sns_message_no_ClientError (in_use_message snapshot)
                  {| calls := (calls s ++ [DescribeImages (SnapshotId snapshot)])%list;
                     logs := logs s |}) as Hno.
    destruct (send_sns_message cfg aws (in_use_message snapshot) _) as [[u|[m|m|m]] s'];
      simpl in *; try exact Hc.
    now destruct (Hno m).
  - destruct (process_snapshot_calls snapshot current_date s) as [added [Hc [-> | ->]]];
      exists_added Hc.
Qed.

(** C7: with an empty [SNS_TOPIC_ARN], a [SNAPSHOT_RETENTION_DAYS] that
    is zero or negative, or a negative [WARNING_DAYS], [lambda_handler]
    returns a 400 response whose body is the validation error and makes
    no client call at all; it only writes the error to the log. *)
Theorem invalid_configuration_is_rejected (utc_now : Z) (s : State) :
  SNS_TOPIC_ARN cfg = ""%string
  \/ SNAPSHOT_RETENTION_DAYS cfg <= 0
  \/ WARNING_DAYS cfg < 0 ->
  exists msg,
    lambda_handler cfg aws utc_now s
    = (Ok {| statusCode := 400; body := "Validation error: " ++ msg |},
       {| calls := calls s;
          logs := (logs s ++ [(ERROR, ("Validation error: " ++ msg)%string)])%list |}).
Proof.
  intro Hbad.
  assert (Hv : exists msg, validate_env_vars cfg s = (Raise (ValueError msg), s)).
  { unfold validate_env_vars.
    destruct ((SNS_TOPIC_ARN cfg =? "")%string || (SNAPSHOT_RETENTION_DAYS cfg =? 0))
      eqn:Hmissing.
    - eexists. reflexivity.
    - apply orb_false_iff in Hmissing. destruct Hmissing as [Harn Hzero].
      assert (Hinv : (SNAPSHOT_RETENTION_DAYS cfg <=? 0) || (WARNING_DAYS cfg <? 0) = true).
      { destruct Hbad as [Hb | [Hb | Hb]].
        - apply String.eqb_neq in Harn. contradiction.
        - apply Z.leb_le in Hb. rewrite Hb. reflexivity.
        - apply Z.ltb_lt in Hb. rewrite Hb. apply orb_true_r. }
      rewrite Hinv. eexists. reflexivity. }
  destruct Hv as [msg Hv]. exists msg.
  unfold lambda_handler, try_except, handler_body, bind. rewrite Hv. reflexivity.
Qed.

(** When the metrics client fails with [ClientError] only,
    [lambda_handler] always returns a response and raises nothing.  The response is 200 when the body of its [try]
    returns, 400 with the text of the error when the body raises
    [ValueError], 500 after one [AWSAPIErrors] increment when it raises
    [ClientError], and 500 after one [UnexpectedErrors] increment when
    it raises anything else. *)
Theorem lambda_handler_returns_a_response (utc_now : Z) (s : State) :
  metrics_fail_with_ClientError_only aws ->
  exists response s',
    lambda_handler cfg aws utc_now s = (Ok response, s')
    /\ match handler_body cfg aws utc_now s with
       | (Ok _, s1) =>
           response = {| statusCode := 200;
                         body := "Snapshot cleanup completed successfully!" |}
           /\ s' = s1
       | (Raise (ValueError ve), s1) =>
           response = {| statusCode := 400; body := "Validation error: " ++ ve |}
           /\ calls s' = calls s1
       | (Raise (ClientError _), s1) =>
           response = {| statusCode := 500;
                         body := "An error occurred during AWS API call" |}
           /\ calls s' = (calls s1 ++ [PutMetricData "AWSAPIErrors"])%list
       | (Raise (OtherException _), s1) =>
           response = {| statusCode := 500; body := "An unexpected error occurred" |}
           /\ calls s' = (calls s1 ++ [PutMetricData "UnexpectedErrors"])%list
       end.
Proof.
  intro Hm. unfold lambda_handler, try_except.
  destruct (handler_body cfg aws utc_now s) as [[r|[ve|ce|oe]] s1] eqn:Hbody.
  - exists r, s1. split; [reflexivity|]. split; [|reflexivity].
    exact (handler_body_returns _ _ _ _ Hbody).
  - eexists _, _. split; [reflexivity|]. split; reflexivity.
  - unfold bind. simpl.
    pose proof (increment_metric_returns "AWSAPIErrors"
      {| calls := calls s1;
         logs := (logs s1 ++ [(ERROR, ("AWS API error: " ++ ce)%string)])%list |} Hm) as Hr.
    pose proof (increment_metric_calls "AWSAPIErrors"
      {| calls := calls s1;
         logs := (logs s1 ++ [(ERROR, ("AWS API error: " ++ ce)%string)])%list |}) as Hc.
    destruct (increment_metric aws "AWSAPIErrors" _) as [[u|e] s2]; simpl in Hr, Hc;
      [|discriminate].
    eexists _, _. split; [reflexivity|]. split; [reflexivity | exact Hc].
  - unfold bind. simpl.
    pose proof (increment_metric_returns "UnexpectedErrors"
      {| calls := calls s1;
         logs := (logs s1 ++ [(ERROR, ("An unexpected error occurred: " ++ oe)%string)])%list |}
      Hm) as Hr.
    pose proof (increment_metric_calls "UnexpectedErrors"
      {| calls := calls s1;
         logs := (logs s1 ++ [(ERROR, ("An unexpected error occurred: " ++ oe)%string)])%list |})
      as Hc.
    destruct (increment_metric aws "UnexpectedErrors" _) as [[u|e] s2]; simpl in Hr, Hc;
      [|discriminate].
    eexists _, _. split; [reflexivity|]. split; [reflexivity | exact Hc].
Qed.

(** When the image lookup of the deletion block, or the deletion
    after an empty lookup, is refused with a [ClientError], the block
    catches it: it writes the error to the log,
    publishes nothing, and calls [increment_metric] for
    [SnapshotProcessingErrors].  The block then returns, so that the
    loop goes on to the next snapshot, unless that [put_metric_data]
    call itself raises something other than a [ClientError]. *)
Theorem lookup_or_deletion_failure_is_caught
    (snapshot : Snapshot) (s : State) (made : list Call) (msg : string) :
  lookup_or_deletion_fails cfg aws snapshot s made msg ->
  calls (snd (delete_if_unused cfg aws snapshot s))
  = (calls s ++ made ++ [PutMetricData "SnapshotProcessingErrors"])%list
  /\ existsb is_publish (made ++ [PutMetricData "SnapshotProcessingErrors"]) = false
  /\ (exists tail,
        logs (snd (delete_if_unused cfg aws snapshot s))
        = (logs s ++
           (ERROR, ("Error processing snapshot " ++ SnapshotId snapshot ++ ": " ++ msg)%string)
           :: tail)%list)
  /\ (fst (delete_if_unused cfg aws snapshot s) = Ok tt
      \/ exists e,
           fst (delete_if_unused cfg aws snapshot s) = Raise e
           /\ cloudwatch_put_metric_data aws (calls s ++ made)%list
                "SnapshotProcessingErrors" = Raise e
           /\ forall m, e <> ClientError m).
Proof.
  intro Hfail.
  assert (Hrun : delete_if_unused cfg aws snapshot s
                 = increment_metric aws "SnapshotProcessingErrors"
                     {| calls := (calls s ++ made)%list;
                        logs := (logs s ++
                                 [(ERROR, ("Error processing snapshot "
                                           ++ SnapshotId snapshot ++ ": " ++ msg)%string)])%list |}).
  { destruct Hfail as [[-> Hlookup] | [-> [Hdry [Hlookup Hdelete]]]];
      unfold delete_if_unused, try_except, bind, call; simpl.
    - rewrite Hlookup. reflexivity.
    - rewrite Hlookup, Hdry. simpl. rewrite Hdelete. simpl.
      rewrite <- app_assoc. reflexivity. }
  rewrite Hrun.
  set (s1 := {| calls := (calls s ++ made)%list; logs := _ |}).
  split; [|split; [|split]].
  - rewrite increment_metric_calls. simpl. now rewrite app_assoc.
  - destruct Hfail as [[-> _] | [-> _]]; reflexivity.
  - destruct (increment_metric_logs "SnapshotProcessingErrors" s1) as [tail Htail].
    exists tail. rewrite Htail. simpl. rewrite <- app_assoc. reflexivity.
  - destruct (fst (increment_metric aws "SnapshotProcessingErrors" s1)) as [[]|e] eqn:Hr.
    + now left.
    + right. exists e. split; [reflexivity|].
      exact (increment_metric_raises _ _ _ Hr).
Qed.

(** ** Batches *)

Lemma log_blind_send_sns_message (message : string) :
  log_blind (send_sns_message cfg aws message).
Proof.
  apply log_blind_try; [apply log_blind_call|].
  apply log_blind_except_ClientError. intro msg. apply log_blind_log.
Qed.

Lemma log_blind_increment_metric (metric_name : string) :
  log_blind (increment_metric aws metric_name).
Proof.
  apply log_blind_try; [apply log_blind_call|].
  apply log_blind_except_ClientError. intro msg. apply log_blind_log.
Qed.

Lemma log_blind_process_snapshot (snapshot : Snapshot) (current_date : Z) :
  log_blind (process_snapshot cfg aws snapshot current_date).
Proof.
  intros s1 s2 H. rewrite !process_snapshot_cases.
  destruct (is_exempt snapshot); [now apply log_blind_log|].
  destruct ((1 <=? days_over cfg snapshot current_date)
            && (days_over cfg snapshot current_date <=? WARNING_DAYS cfg)).
  - apply log_blind_bind;
      [apply log_blind_send_sns_message | intro; apply log_blind_ret | exact H].
  - split; [reflexivity | exact H].
Qed.

(** With a positive [BATCH_SIZE] the batches are the consecutive chunks
    of that size. *)
Lemma batches_chunks (snapshots : list Snapshot) :
  0 < BATCH_SIZE cfg ->
  batches cfg snapshots
  = Ok (map (fun k => firstn (Z.to_nat (BATCH_SIZE cfg))
                        (skipn (k * Z.to_nat (BATCH_SIZE cfg)) snapshots))
            (seq 0 (Z.to_nat (if 0 <? len snapshots
                              then (len snapshots - 0 - 1) / BATCH_SIZE cfg + 1
                              else 0)))).
Proof.
  intro Hpos. unfold batches, py_range.
  destruct (Z.eqb_spec (BATCH_SIZE cfg) 0); [lia|].
  destruct (Z.ltb_spec 0 (BATCH_SIZE cfg)); [|lia].
  rewrite map_map. f_equal. apply map_ext. intro k.
  rewrite py_slice_chunk by lia. f_equal. f_equal. lia.
Qed.

Lemma batches_cover (snapshots : list Snapshot) :
  0 < BATCH_SIZE cfg ->
  exists bs, batches cfg snapshots = Ok bs /\ concat bs = snapshots.
Proof.
  intro Hpos. eexists. split; [now apply batches_chunks|].
  rewrite concat_chunks. simpl skipn.
  apply firstn_all2. unfold len.
  destruct (Z.ltb_spec 0 (Z.of_nat (length snapshots))) as [Hne | Hempty].
  - pose proof (Z.mul_succ_div_gt (Z.of_nat (length snapshots) - 0 - 1) (BATCH_SIZE cfg) Hpos).
    assert (0 <= (Z.of_nat (length snapshots) - 0 - 1) / BATCH_SIZE cfg)
      by (apply Z.div_pos; lia).
    nia.
  - lia.
Qed.


End Properties.

(** ** Concrete runs *)

(** C1: on the day retention expires (thirty days old with a retention
    of thirty days, so zero days over) a snapshot that is not exempt and
    that no AMI uses is left alone: no image lookup, no deletion, no
    notification and no [SnapshotsDeleted] increment, with dry-run off
    and with dry-run on. *)
Lemma retention_day_snapshot_is_not_deleted :
  days_over sample_cfg (snap "snap-1" 0) (day 30) = 0
  /\ is_exempt (snap "snap-1" 0) = false
  /\ ec2_describe_images (quiet_aws []) [] "snap-1" = Ok []
  /\ process_snapshot sample_cfg (quiet_aws []) (snap "snap-1" 0) (day 30) start_state
     = (Ok tt, start_state)
  /\ process_snapshot sample_cfg_dry_run (quiet_aws []) (snap "snap-1" 0) (day 30) start_state
     = (Ok tt, start_state).
Proof.
  repeat split; reflexivity.
Qed.

(** C6: a snapshot that an AMI uses gets no "in use, will not be
    deleted" notification from the processor.  On the day retention
    expires, and four hundred days after the snapshot was taken, the
    image lookup that would return the AMI is never made:
    [process_snapshot] does nothing, and a whole run of the handler over
    that snapshot makes the listing request and the [SnapshotsProcessed]
    increment only.  The earlier handler, on the same day and with the
    same answers from EC2, makes the lookup and publishes the
    notification. *)
Lemma referenced_snapshot_gets_no_in_use_notice :
  days_over sample_cfg (snap "snap-1" 0) (day 30) = 0
  /\ is_exempt (snap "snap-1" 0) = false
  /\ ec2_describe_images (in_use_listing_aws [snap "snap-1" 0]) [] "snap-1"
     = Ok [ {| ImageId := "ami-0abc" |} ]
  /\ process_snapshot sample_cfg (in_use_listing_aws [snap "snap-1" 0]) (snap "snap-1" 0)
       (day 30) start_state
     = (Ok tt, start_state)
  /\ process_snapshot sample_cfg (in_use_listing_aws [snap "snap-1" 0]) (snap "snap-1" 0)
       (day 400) start_state
     = (Ok tt, start_state)
  /\ calls (snd (lambda_handler sample_cfg (in_use_listing_aws [snap "snap-1" 0]) (day 30)
                   start_state))
     = [DescribeSnapshots; PutMetricData "SnapshotsProcessed"]
  /\ calls (snd (Old.check_snapshot old_cfg (old_in_use_aws [snap "snap-1" 0])
                   (snap "snap-1" 0) (day 30) start_state))
     = [DescribeImages "snap-1";
        Publish (SNS_TOPIC_ARN sample_cfg)
          "Snapshot snap-1 is in use by AMI(s) and will not be deleted."].
Proof.
  repeat split; reflexivity.
Qed.


Lemma warning_window_one_warning_witness :
  ~ exempt (snap "snap-1" 0)
  /\ 1 <= days_over sample_cfg (snap "snap-1" 0) (day 31) <= WARNING_DAYS sample_cfg
  /\ calls (snd (process_snapshot sample_cfg (quiet_aws []) (snap "snap-1" 0) (day 31)
                  start_state))
     = [Publish (SNS_TOPIC_ARN sample_cfg) "Snapshot snap-1 will be deleted in 1 days."].
Proof.
  assert (Hne : ~ exempt (snap "snap-1" 0)) by (apply not_exempt_spec; reflexivity).
  assert (Hd : 1 <= days_over sample_cfg (snap "snap-1" 0) (day 31)
               <= WARNING_DAYS sample_cfg) by (vm_compute; split; discriminate).
  split; [exact Hne | split; [exact Hd |]].
  exact (warning_window_one_warning sample_cfg (quiet_aws []) (snap "snap-1" 0) (day 31)
           start_state Hne Hd).
Defined.

Lemma exempt_snapshot_untouched_witness :
  exempt (exempt_snap "snap-9" 0)
  /\ process_snapshot sample_cfg (quiet_aws []) (exempt_snap "snap-9" 0) (day 400)
       start_state
     = (Ok tt, {| calls := [];
                  logs := [(INFO, "Snapshot snap-9 is exempt from deletion")] |}).
Proof.
  assert (Hex : exempt (exempt_snap "snap-9" 0)) by (apply is_exempt_spec; reflexivity).
  split; [exact Hex |].
  exact (exempt_snapshot_untouched sample_cfg (quiet_aws []) (exempt_snap "snap-9" 0)
           (day 400) start_state Hex).
Defined.

Lemma young_snapshot_untouched_witness :
  ~ exempt (snap "snap-1" 0)
  /\ age_days (snap "snap-1" 0) (day 30) <= SNAPSHOT_RETENTION_DAYS sample_cfg
  /\ process_snapshot sample_cfg (quiet_aws []) (snap "snap-1" 0) (day 30) start_state
     = (Ok tt, start_state).
Proof.
  assert (Hne : ~ exempt (snap "snap-1" 0)) by (apply not_exempt_spec; reflexivity).
  assert (Hage : age_days (snap "snap-1" 0) (day 30) <= SNAPSHOT_RETENTION_DAYS sample_cfg)
    by (vm_compute; discriminate).
  split; [exact Hne | split; [exact Hage |]].
  exact (young_snapshot_untouched sample_cfg (quiet_aws []) (snap "snap-1" 0) (day 30)
           start_state Hne Hage).
Defined.

Lemma referenced_snapshot_is_kept_witness :
  ec2_describe_images in_use_aws (calls start_state) (SnapshotId (snap "snap-1" 0))
  = Ok [ {| ImageId := "ami-0abc" |} ]
  /\ calls (snd (delete_if_unused sample_cfg in_use_aws (snap "snap-1" 0) start_state))
     = [DescribeImages "snap-1";
        Publish (SNS_TOPIC_ARN sample_cfg)
          "Snapshot snap-1 is in use by AMI(s) and will not be deleted."]
  /\ exists added,
       calls (snd (process_snapshot sample_cfg in_use_aws (snap "snap-1" 0) (day 400)
                     start_state))
       = added
       /\ existsb is_delete added = false.
Proof.
  split; [reflexivity|].
  exact (referenced_snapshot_is_kept sample_cfg in_use_aws (snap "snap-1" 0) (day 400)
           start_state {| ImageId := "ami-0abc" |} [] eq_refl).
Defined.

Lemma invalid_configuration_is_rejected_witness :
  (SNS_TOPIC_ARN zero_retention_cfg = ""%string
   \/ SNAPSHOT_RETENTION_DAYS zero_retention_cfg <= 0
   \/ WARNING_DAYS zero_retention_cfg < 0)
  /\ exists msg,
       lambda_handler zero_retention_cfg (quiet_aws [snap "snap-1" 0]) (day 400) start_state
       = (Ok {| statusCode := 400; body := "Validation error: " ++ msg |},
          {| calls := [];
             logs := [(ERROR, ("Validation error: " ++ msg)%string)] |}).
Proof.
  assert (Hbad : SNS_TOPIC_ARN zero_retention_cfg = ""%string
                 \/ SNAPSHOT_RETENTION_DAYS zero_retention_cfg <= 0
                 \/ WARNING_DAYS zero_retention_cfg < 0)
    by (right; left; vm_compute; discriminate).
  split; [exact Hbad |].
  exact (invalid_configuration_is_rejected zero_retention_cfg (quiet_aws [snap "snap-1" 0])
           (day 400) start_state Hbad).
Defined.

(** C8: [lambda_handler] does not always return a response.  With no
    endpoint in reach the listing raises [EndpointConnectionError], the
    last [except] clause (lines 122-125) logs it and calls
    [increment_metric], whose [put_metric_data] raises the same error;
    [increment_metric] catches [ClientError] only, so the exception
    leaves [lambda_handler] instead of the 500 response that the clause
    goes on to build. *)
Lemma lambda_handler_can_raise :
  lambda_handler sample_cfg offline_aws (day 400) start_state
  = (Raise (OtherException "EndpointConnectionError"),
     {| calls := [DescribeSnapshots; PutMetricData "UnexpectedErrors"];
        logs := [(ERROR, "An unexpected error occurred: EndpointConnectionError")] |}).
Proof.
  reflexivity.
Qed.

Lemma lambda_handler_returns_a_response_witness :
  metrics_fail_with_ClientError_only denied_listing_aws
  /\ exists response s',
       lambda_handler sample_cfg denied_listing_aws (day 400) start_state
       = (Ok response, s')
       /\ response = {| statusCode := 500;
                        body := "An error occurred during AWS API call" |}
       /\ calls s' = [DescribeSnapshots; PutMetricData "AWSAPIErrors"].
Proof.
  assert (Hm : metrics_fail_with_ClientError_only denied_listing_aws)
    by (intros h metric_name e H; discriminate H).
  split; [exact Hm |].
  exact (lambda_handler_returns_a_response sample_cfg denied_listing_aws (day 400)
           start_state Hm).
Defined.

Lemma lookup_or_deletion_failure_is_caught_witness :
  lookup_or_deletion_fails sample_cfg throttled_aws (snap "snap-1" 0) start_state
    [DescribeImages "snap-1"] "RequestLimitExceeded"
  /\ calls (snd (delete_if_unused sample_cfg throttled_aws (snap "snap-1" 0) start_state))
     = [DescribeImages "snap-1"; PutMetricData "SnapshotProcessingErrors"]
  /\ fst (delete_if_unused sample_cfg throttled_aws (snap "snap-1" 0) start_state) = Ok tt.
Proof.
  assert (Hfail : lookup_or_deletion_fails sample_cfg throttled_aws (snap "snap-1" 0)
                    start_state [DescribeImages "snap-1"] "RequestLimitExceeded")
    by (left; split; reflexivity).
  split; [exact Hfail |].
  destruct (lookup_or_deletion_failure_is_caught sample_cfg throttled_aws (snap "snap-1" 0)
              start_state [DescribeImages "snap-1"] "RequestLimitExceeded" Hfail)
    as (Hcalls & _ & _ & _).
  split; [exact Hcalls | reflexivity].
Defined.


(** * Further properties of the module *)

(** ** Calls a computation may add *)

Lemma adds_only_ret {A : Type} (P : Call -> Prop) (a : A) : adds_only P (ret a).
Proof. intro s. exists []. simpl. rewrite app_nil_r. split; [reflexivity | constructor]. Qed.

Lemma adds_only_raise {A : Type} (P : Call -> Prop) (e : exn) : adds_only P (@raise A e).
Proof. intro s. exists []. simpl. rewrite app_nil_r. split; [reflexivity | constructor]. Qed.

Lemma adds_only_log (P : Call -> Prop) (lvl : Level) (msg : string) :
  adds_only P (log lvl msg).
Proof. intro s. exists []. simpl. rewrite app_nil_r. split; [reflexivity | constructor]. Qed.

Lemma adds_only_call {A : Type} (P : Call -> Prop) (c : Call)
    (response : list Call -> outcome A) :
  P c -> adds_only P (call c response).
Proof. intros Hc s. exists [c]. split; [reflexivity | repeat constructor; exact Hc]. Qed.

Lemma adds_only_bind {A B : Type} (P : Call -> Prop) (m : M A) (k : A -> M B) :
  adds_only P m -> (forall a, adds_only P (k a)) -> adds_only P (bind m k).
Proof.
  intros Hm Hk s. unfold bind.
  destruct (Hm s) as [added1 [Hc1 HP1]].
  destruct (m s) as [[a|e] s1]; simpl in Hc1.
  - destruct (Hk a s1) as [added2 [Hc2 HP2]].
    exists (added1 ++ added2)%list. split.
    + rewrite Hc2, Hc1, app_assoc. reflexivity.
    + apply Forall_app. split; assumption.
  - exists added1. split; assumption.
Qed.

Lemma adds_only_try {A : Type} (P : Call -> Prop) (body : M A)
    (handler : exn -> option (M A)) :
  adds_only P body ->
  (forall e h, handler e = Some h -> adds_only P h) ->
  adds_only P (try_except body handler).
Proof.
  intros Hb Hh s. unfold try_except.
  destruct (Hb s) as [added1 [Hc1 HP1]].
  destruct (body s) as [[a|e] s1]; simpl in Hc1.
  - exists added1. split; assumption.
  - destruct (handler e) as [h|] eqn:Hcatch.
    + destruct (Hh e h Hcatch s1) as [added2 [Hc2 HP2]].
      exists (added1 ++ added2)%list. split.
      * rewrite Hc2, Hc1, app_assoc. reflexivity.
      * apply Forall_app. split; assumption.
    + exists added1. split; assumption.
Qed.

Lemma adds_only_except_ClientError {A : Type} (P : Call -> Prop) (h : string -> M A) :
  (forall msg, adds_only P (h msg)) ->
  forall e h', except_ClientError h e = Some h' -> adds_only P h'.
Proof.
  intros Hh [m|m|m] h' Heq; simpl in Heq; try discriminate.
  injection Heq as <-. apply Hh.
Qed.

Lemma adds_only_for_each {A : Type} (P : Call -> Prop) (l : list A) (body : A -> M unit) :
  (forall x, adds_only P (body x)) -> adds_only P (for_each l body).
Proof.
  intro Hb. induction l as [|x l IH]; simpl.
  - apply adds_only_ret.
  - apply adds_only_bind; auto.
Qed.

Section Coverage.

Variable cfg : Config.
Variable aws : Clients.

(** ** Validation *)

(** [validate_env_vars] returns exactly for the configurations with a
    non-empty topic, a positive retention and a non-negative warning
    period; [BATCH_SIZE] and [DRY_RUN] play no part. *)
Theorem validate_env_vars_accepts_iff (s : State) :
  validate_env_vars cfg s = (Ok tt, s) <-> valid_config cfg.
Proof.
  unfold validate_env_vars, valid_config.
  destruct (String.eqb_spec (SNS_TOPIC_ARN cfg) "") as [Harn | Harn];
    destruct (Z.eqb_spec (SNAPSHOT_RETENTION_DAYS cfg) 0) as [Hzero | Hzero];
    destruct (Z.leb_spec (SNAPSHOT_RETENTION_DAYS cfg) 0) as [Hle | Hgt];
    destruct (Z.ltb_spec (WARNING_DAYS cfg) 0) as [Hneg | Hpos];
    simpl; unfold raise, ret;
    (split; [intro H; try discriminate; repeat split; try assumption; lia
            | intros (H1 & H2 & H3); try reflexivity; try contradiction; lia]).
Qed.

(** ** Listing *)

Lemma paginate_all_pages (pages : list (list Snapshot)) (acc : list Snapshot) (s : State) :
  paginate (map Ok pages) acc s
  = (Ok (acc ++ concat pages)%list,
     {| calls := (calls s ++ repeat DescribeSnapshots (length pages))%list;
        logs := logs s |}).
Proof.
  revert acc s. induction pages as [|page pages IH]; intros acc s; simpl.
  - unfold ret. rewrite !app_nil_r. destruct s; reflexivity.
  - unfold bind, call. rewrite IH. simpl.
    rewrite <- !app_assoc. reflexivity.
Qed.

Lemma paginate_failing_page (good : list (list Snapshot)) (e : exn)
    (rest : list (outcome (list Snapshot))) (acc : list Snapshot) (s : State) :
  paginate (map Ok good ++ Raise e :: rest) acc s
  = (Raise e,
     {| calls := (calls s ++ repeat DescribeSnapshots (S (length good)))%list;
        logs := logs s |}).
Proof.
  revert acc s. induction good as [|page good IH]; intros acc s; simpl.
  - reflexivity.
  - unfold bind, call. simpl. rewrite IH. simpl.
    rewrite <- !app_assoc. reflexivity.
Qed.

(** When every page of the listing arrives, [get_all_snapshots] returns
    the snapshots of all the pages in order, after one
    [describe_snapshots] request per page. *)
Theorem get_all_snapshots_collects_pages (pages : list (list Snapshot)) (s : State) :
  ec2_describe_snapshots aws (calls s) = map Ok pages ->
  get_all_snapshots aws s
  = (Ok (concat pages),
     {| calls := (calls s ++ repeat DescribeSnapshots (length pages))%list;
        logs := logs s |}).
Proof.
  intro Hpages. unfold get_all_snapshots. rewrite Hpages.
  apply paginate_all_pages.
Qed.

(** When a page of the listing fails, [get_all_snapshots] raises that
    error: the snapshots of the pages before it are lost and the pages
    after it are not requested. *)
Theorem get_all_snapshots_stops_at_failure
    (good : list (list Snapshot)) (e : exn) (rest : list (outcome (list Snapshot)))
    (s : State) :
  ec2_describe_snapshots aws (calls s) = (map Ok good ++ Raise e :: rest)%list ->
  get_all_snapshots aws s
  = (Raise e,
     {| calls := (calls s ++ repeat DescribeSnapshots (S (length good)))%list;
        logs := logs s |}).
Proof.
  intro Hpages. unfold get_all_snapshots. rewrite Hpages.
  apply paginate_failing_page.
Qed.

(** ** One snapshot *)

(** A snapshot that is more than [WARNING_DAYS] days over retention is
    passed over: no warning, no image lookup, no deletion, nothing in
    the log. *)
Theorem overdue_snapshot_is_ignored
    (snapshot : Snapshot) (current_date : Z) (s : State) :
  ~ exempt snapshot ->
  WARNING_DAYS cfg < days_over cfg snapshot current_date ->
  process_snapshot cfg aws snapshot current_date s = (Ok tt, s).
Proof.
  intros Hne Hover. apply not_exempt_spec in Hne.
  rewrite process_snapshot_cases. rewrite Hne.
  assert (H : (days_over cfg snapshot current_date <=? WARNING_DAYS cfg) = false)
    by (apply Z.leb_gt; exact Hover).
  rewrite H, andb_false_r. reflexivity.
Qed.

(** The only exception that leaves [process_snapshot] is one that
    [publish] raised for the warning of a snapshot in the warning
    window, and it is not a [ClientError]. *)
Theorem process_snapshot_raises_only_from_publish
    (snapshot : Snapshot) (current_date : Z) (s : State) (e : exn) :
  fst (process_snapshot cfg aws snapshot current_date s) = Raise e ->
  in_warning_window cfg current_date snapshot = true
  /\ sns_publish aws (calls s) (SNS_TOPIC_ARN cfg)
       ("Snapshot " ++ SnapshotId snapshot ++ " will be deleted in "
        ++ str_of_int (days_over cfg snapshot current_date) ++ " days.") = Raise e
  /\ forall msg, e <> ClientError msg.
Proof.
  rewrite process_snapshot_cases. unfold in_warning_window.
  destruct (is_exempt snapshot); [discriminate|].
  destruct ((1 <=? days_over cfg snapshot current_date)
            && (days_over cfg snapshot current_date <=? WARNING_DAYS cfg)) eqn:Hwin;
    [|discriminate].
  simpl. rewrite Hwin.
  unfold bind, send_sns_message, try_except, call. simpl.
  destruct (sns_publish aws (calls s) (SNS_TOPIC_ARN cfg) _) as [u|[m|m|m]];
    simpl; intro H; try discriminate; injection H as <-;
    (split; [reflexivity | split; [reflexivity | intro; discriminate]]).
Qed.

(** ** The deletion block *)

Lemma send_sns_message_returns (message : string) (s : State) :
  publish_fails_with_ClientError_only aws ->
  fst (send_sns_message cfg aws message s) = Ok tt.
Proof.
  intro Hp. unfold send_sns_message, try_except, call. simpl.
  destruct (sns_publish aws (calls s) (SNS_TOPIC_ARN cfg) message) as [u|e] eqn:Hr.
  - destruct u. reflexivity.
  - destruct (Hp _ _ _ _ Hr) as [msg ->]. reflexivity.
Qed.

(** The calls of a notification followed by a metric increment. *)
Lemma notify_then_count_calls (message metric_name : string) (s : State) :
  publish_fails_with_ClientError_only aws ->
  calls (snd ((send_sns_message cfg aws message ;; increment_metric aws metric_name) s))
  = (calls s ++ [Publish (SNS_TOPIC_ARN cfg) message; PutMetricData metric_name])%list
  /\ forall msg,
       fst ((send_sns_message cfg aws message ;; increment_metric aws metric_name) s)
       <> Raise (ClientError msg).
Proof.
  intro Hp. unfold bind.
  pose proof (send_sns_message_returns message s Hp) as Hr.
  pose proof (send_sns_message_calls cfg aws message s) as Hc.
  destruct (send_sns_message cfg aws message s) as [[[]|e] s1]; simpl in Hr, Hc;
    [|discriminate].
  split.
  - rewrite increment_metric_calls, Hc, <- app_assoc. reflexivity.
  - intro msg. apply increment_metric_no_ClientError.
Qed.

(** With dry-run off, an empty image lookup and a deletion that
    succeeds, the deletion block makes four calls in this order: the
    lookup, the deletion, the "Deleted snapshot" notification and the
    [SnapshotsDeleted] increment (the notification client failing with
    [ClientError] at most). *)
Theorem unused_snapshot_is_deleted (snapshot : Snapshot) (s : State) :
  publish_fails_with_ClientError_only aws ->
  DRY_RUN cfg = false ->
  ec2_describe_images aws (calls s) (SnapshotId snapshot) = Ok [] ->
  ec2_delete_snapshot aws (calls s ++ [DescribeImages (SnapshotId snapshot)])%list
    (SnapshotId snapshot) = Ok tt ->
  calls (snd (delete_if_unused cfg aws snapshot s))
  = (calls s ++
     [DescribeImages (SnapshotId snapshot);
      DeleteSnapshot (SnapshotId snapshot);
      Publish (SNS_TOPIC_ARN cfg)
        ("Deleted snapshot " ++ SnapshotId snapshot ++ " which exceeded retention period.");
      PutMetricData "SnapshotsDeleted"])%list.
Proof.
  intros Hp Hdry Hlookup Hdelete.
  unfold delete_if_unused, try_except.
  unfold bind at 1. unfold call at 1. simpl. rewrite Hlookup, Hdry.
  unfold bind at 1. unfold call at 1. simpl. rewrite Hdelete.
  set (s2 := {| calls := _; logs := logs s |}).
  destruct (notify_then_count_calls (deleted_message cfg snapshot) "SnapshotsDeleted" s2 Hp)
    as [Hc Hno].
  destruct ((send_sns_message cfg aws (deleted_message cfg snapshot) ;;
             increment_metric aws "SnapshotsDeleted") s2) as [[u|[m|m|m]] s3];
    simpl in Hc |- *;
    try (rewrite Hc; unfold s2, deleted_message; simpl; rewrite Hdry;
         rewrite <- !app_assoc; reflexivity).
  now destruct (Hno m).
Qed.

(** With dry-run on and an empty image lookup, the deletion block makes
    no [delete_snapshot] call; it publishes the "[DRY RUN] Would have
    deleted" text and still increments [SnapshotsDeleted]. *)
Theorem dry_run_reports_without_deleting (snapshot : Snapshot) (s : State) :
  publish_fails_with_ClientError_only aws ->
  DRY_RUN cfg = true ->
  ec2_describe_images aws (calls s) (SnapshotId snapshot) = Ok [] ->
  calls (snd (delete_if_unused cfg aws snapshot s))
  = (calls s ++
     [DescribeImages (SnapshotId snapshot);
      Publish (SNS_TOPIC_ARN cfg)
        ("[DRY RUN] Would have deleted snapshot " ++ SnapshotId snapshot
         ++ " which exceeded retention period.");
      PutMetricData "SnapshotsDeleted"])%list.
Proof.
  intros Hp Hdry Hlookup.
  unfold delete_if_unused, try_except.
  unfold bind at 1. unfold call at 1. simpl. rewrite Hlookup, Hdry.
  unfold bind at 1. unfold ret at 1.
  set (s1 := {| calls := _; logs := logs s |}).
  destruct (notify_then_count_calls (deleted_message cfg snapshot) "SnapshotsDeleted" s1 Hp)
    as [Hc Hno].
  destruct ((send_sns_message cfg aws (deleted_message cfg snapshot) ;;
             increment_metric aws "SnapshotsDeleted") s1) as [[u|[m|m|m]] s3];
    simpl in Hc |- *;
    try (rewrite Hc; unfold s1, deleted_message; simpl; rewrite Hdry;
         rewrite <- !app_assoc; reflexivity).
  now destruct (Hno m).
Qed.

(** The deletion block starts with the image lookup, and it calls
    [delete_snapshot] only with dry-run off and after a lookup that
    returned no image; the snapshot deleted is the one looked up. *)
Theorem deletion_needs_empty_lookup (snapshot : Snapshot) (s : State) :
  exists rest,
    calls (snd (delete_if_unused cfg aws snapshot s))
    = (calls s ++ DescribeImages (SnapshotId snapshot) :: rest)%list
    /\ Forall (fun c => is_delete c = true -> c = DeleteSnapshot (SnapshotId snapshot)) rest
    /\ (existsb is_delete rest = true ->
        DRY_RUN cfg = false
        /\ ec2_describe_images aws (calls s) (SnapshotId snapshot) = Ok []).
Proof.
  unfold delete_if_unused, send_sns_message, increment_metric, try_except, bind, call,
    log, ret, except_ClientError.
  simpl.
  destruct (ec2_describe_images aws (calls s) (SnapshotId snapshot))
    as [[|image images]|[m|m|m]] eqn:Hlookup; simpl;
    try destruct (DRY_RUN cfg) eqn:Hdry; simpl;
    repeat match goal with
      | |- context [match ?r with Ok _ => _ | Raise _ => _ end] =>
          destruct r as [[]|[?|?|?]]; simpl
      end;
    rewrite <- ?app_assoc; simpl;
    (eexists; split; [reflexivity | split;
       [repeat constructor; simpl; intros; try discriminate; reflexivity
       | simpl; intro H; try discriminate; split; reflexivity]]).
Qed.

(** ** Batches *)

(** [BATCH_SIZE] is not validated.  With a configuration that passes
    validation and a batch size of zero, the listing is made and then
    [range] raises [ValueError]: the handler answers 400 with that
    text, and no snapshot is processed. *)
Theorem zero_batch_size_is_reported_as_validation_error
    (pages : list (list Snapshot)) (utc_now : Z) (s : State) :
  valid_config cfg ->
  BATCH_SIZE cfg = 0 ->
  ec2_describe_snapshots aws (calls s) = map Ok pages ->
  lambda_handler cfg aws utc_now s
  = (Ok {| statusCode := 400;
           body := "Validation error: range() arg 3 must not be zero" |},
     {| calls := (calls s ++ repeat DescribeSnapshots (length pages))%list;
        logs := (logs s ++
                 [(ERROR, "Validation error: range() arg 3 must not be zero")])%list |}).
Proof.
  intros Hvalid Hzero Hpages.
  apply validate_env_vars_accepts_iff with (s := s) in Hvalid.
  unfold lambda_handler, try_except, handler_body.
  unfold bind at 1. rewrite Hvalid.
  unfold bind at 1. rewrite (get_all_snapshots_collects_pages pages s Hpages).
  unfold bind at 1.
  unfold process_snapshots_in_batches, batches, py_range. rewrite Hzero. reflexivity.
Qed.

(** With a negative [BATCH_SIZE] the range of batch starts is empty:
    [process_snapshots_in_batches] returns at once and processes no
    snapshot. *)
Theorem negative_batch_size_processes_nothing
    (snapshots : list Snapshot) (current_date : Z) (s : State) :
  BATCH_SIZE cfg < 0 ->
  process_snapshots_in_batches cfg aws snapshots current_date s = (Ok tt, s).
Proof.
  intro Hneg. unfold process_snapshots_in_batches, batches, py_range, len.
  destruct (Z.eqb_spec (BATCH_SIZE cfg) 0); [lia|].
  destruct (Z.ltb_spec 0 (BATCH_SIZE cfg)); [lia|].
  destruct (Z.ltb_spec (Z.of_nat (length snapshots)) 0); [lia|].
  reflexivity.
Qed.

(** With a positive [BATCH_SIZE] there are ceil(n / BATCH_SIZE) batches
    for [n] snapshots, none of them empty and none of them larger than
    [BATCH_SIZE]. *)
Theorem batches_are_full_and_bounded (snapshots : list Snapshot) :
  0 < BATCH_SIZE cfg ->
  exists bs,
    batches cfg snapshots = Ok bs
    /\ len bs = batch_count (len snapshots) (BATCH_SIZE cfg)
    /\ Forall (fun batch => 0 < len batch <= BATCH_SIZE cfg) bs.
Proof.
  intro Hpos. eexists. split; [now apply batches_chunks|].
  unfold len, batch_count.
  set (n := Z.of_nat (length snapshots)).
  assert (Hn : 0 <= n) by (unfold n; lia).
  assert (Hcount : (if 0 <? n then (n - 0 - 1) / BATCH_SIZE cfg + 1 else 0)
                   = (n + BATCH_SIZE cfg - 1) / BATCH_SIZE cfg).
  { destruct (Z.ltb_spec 0 n).
    - replace (n + BATCH_SIZE cfg - 1) with (n - 0 - 1 + 1 * BATCH_SIZE cfg) by lia.
      rewrite Z.div_add by lia. reflexivity.
    - replace n with 0 by lia. simpl. symmetry. apply Z.div_small. lia. }
  split.
  - rewrite length_map, length_seq, Hcount. apply Z2Nat.id.
    apply Z.div_pos; lia.
  - apply Forall_forall. intros batch Hin.
    apply in_map_iff in Hin. destruct Hin as [k [<- Hk]].
    apply in_seq in Hk. rewrite length_firstn, length_skipn.
    rewrite Hcount in Hk.
    assert (Hq : 0 <= (n + BATCH_SIZE cfg - 1) / BATCH_SIZE cfg) by (apply Z.div_pos; lia).
    assert (Hdiv : BATCH_SIZE cfg * ((n + BATCH_SIZE cfg - 1) / BATCH_SIZE cfg)
                   <= n + BATCH_SIZE cfg - 1) by (apply Z.mul_div_le; lia).
    assert (Hlt : Z.of_nat k < (n + BATCH_SIZE cfg - 1) / BATCH_SIZE cfg) by lia.
    assert (Hkb : Z.of_nat k * BATCH_SIZE cfg <= n - 1) by nia.
    assert (Hnat : Z.of_nat (k * Z.to_nat (BATCH_SIZE cfg)) = Z.of_nat k * BATCH_SIZE cfg)
      by (rewrite Nat2Z.inj_mul, Z2Nat.id; lia).
    unfold n in *. lia.
Qed.

(** ** The whole handler *)

Lemma adds_only_increment_metric (P : Call -> Prop) (metric_name : string) :
  P (PutMetricData metric_name) -> adds_only P (increment_metric aws metric_name).
Proof.
  intro HP. apply adds_only_try; [now apply adds_only_call|].
  apply adds_only_except_ClientError. intro msg. apply adds_only_log.
Qed.

Lemma adds_only_paginate (P : Call -> Prop) (pages : list (outcome (list Snapshot)))
    (acc : list Snapshot) :
  P DescribeSnapshots -> adds_only P (paginate pages acc).
Proof.
  intro HP. revert acc. induction pages as [|page pages IH]; intro acc; simpl.
  - apply adds_only_ret.
  - apply adds_only_bind; [now apply adds_only_call | intro p; apply IH].
Qed.

Lemma adds_only_process_snapshot (P : Call -> Prop) (snapshot : Snapshot)
    (current_date : Z) :
  (forall topic message, P (Publish topic message)) ->
  adds_only P (process_snapshot cfg aws snapshot current_date).
Proof.
  intros HP s.
  destruct (process_snapshot_calls cfg aws snapshot current_date s)
    as [added [Hc [-> | ->]]]; eexists; (split; [exact Hc|]); repeat constructor.
  apply HP.
Qed.

(** Whatever the configuration, the clients and the snapshots listed,
    a run of [lambda_handler] makes no [describe_images] and no
    [delete_snapshot] call. *)
Theorem lambda_handler_never_looks_up_or_deletes (utc_now : Z) (s : State) :
  exists added,
    calls (snd (lambda_handler cfg aws utc_now s)) = (calls s ++ added)%list
    /\ Forall (fun c => is_delete c = false /\ is_image_lookup c = false) added.
Proof.
  revert s.
  change (adds_only (fun c => is_delete c = false /\ is_image_lookup c = false)
            (lambda_handler cfg aws utc_now)).
  set (P := fun c => is_delete c = false /\ is_image_lookup c = false).
  assert (Hmetric : forall name, adds_only P (increment_metric aws name))
    by (intro name; apply adds_only_increment_metric; split; reflexivity).
  apply adds_only_try.
  - unfold handler_body. apply adds_only_bind.
    + unfold validate_env_vars.
      destruct ((SNS_TOPIC_ARN cfg =? "")%string || (SNAPSHOT_RETENTION_DAYS cfg =? 0));
        [apply adds_only_raise|].
      destruct ((SNAPSHOT_RETENTION_DAYS cfg <=? 0) || (WARNING_DAYS cfg <? 0));
        [apply adds_only_raise | apply adds_only_ret].
    + intros _. apply adds_only_bind.
      * intro s. apply adds_only_paginate. split; reflexivity.
      * intro snapshots. apply adds_only_bind.
        -- unfold process_snapshots_in_batches.
           destruct (batches cfg snapshots) as [bs|e]; [|apply adds_only_raise].
           apply adds_only_for_each. intro batch. apply adds_only_bind.
           ++ apply adds_only_for_each. intro snapshot.
              apply adds_only_process_snapshot. intros topic message. split; reflexivity.
           ++ intros _. apply adds_only_log.
        -- intros _. apply adds_only_bind; [apply adds_only_log|].
           intros _. apply adds_only_bind; [apply Hmetric|].
           intros _. apply adds_only_ret.
  - intros [ve|ce|oe] h Heq; injection Heq as <-.
    + apply adds_only_bind; [apply adds_only_log | intros _; apply adds_only_ret].
    + apply adds_only_bind; [apply adds_only_log|]. intros _.
      apply adds_only_bind; [apply Hmetric | intros _; apply adds_only_ret].
    + apply adds_only_bind; [apply adds_only_log|]. intros _.
      apply adds_only_bind; [apply Hmetric | intros _; apply adds_only_ret].
Qed.

(** One snapshot, when the notification client fails with
    [ClientError] at most: the function returns, having published the
    warning of a snapshot in the warning window and nothing else. *)
Lemma process_snapshot_step (snapshot : Snapshot) (current_date : Z) (s : State) :
  publish_fails_with_ClientError_only aws ->
  fst (process_snapshot cfg aws snapshot current_date s) = Ok tt
  /\ calls (snd (process_snapshot cfg aws snapshot current_date s))
     = (calls s ++
        if in_warning_window cfg current_date snapshot
        then [warning_call cfg current_date snapshot] else [])%list.
Proof.
  intro Hp. rewrite process_snapshot_cases. unfold in_warning_window, warning_call.
  destruct (is_exempt snapshot); simpl.
  - rewrite app_nil_r. split; reflexivity.
  - destruct ((1 <=? days_over cfg snapshot current_date)
              && (days_over cfg snapshot current_date <=? WARNING_DAYS cfg)).
    + unfold bind.
      pose proof (send_sns_message_returns
        ("Snapshot " ++ SnapshotId snapshot ++ " will be deleted in "
         ++ str_of_int (days_over cfg snapshot current_date) ++ " days.") s Hp) as Hr.
      pose proof (send_sns_message_calls cfg aws
        ("Snapshot " ++ SnapshotId snapshot ++ " will be deleted in "
         ++ str_of_int (days_over cfg snapshot current_date) ++ " days.") s) as Hc.
      destruct (send_sns_message cfg aws _ s) as [[[]|e] s1]; simpl in Hr, Hc;
        [|discriminate].
      split; [reflexivity | exact Hc].
    + simpl. rewrite app_nil_r. split; reflexivity.
Qed.

Lemma process_snapshots_sequentially_calls
    (snapshots : list Snapshot) (current_date : Z) (s : State) :
  publish_fails_with_ClientError_only aws ->
  fst (process_snapshots_sequentially cfg aws snapshots current_date s) = Ok tt
  /\ calls (snd (process_snapshots_sequentially cfg aws snapshots current_date s))
     = (calls s ++ map (warning_call cfg current_date)
                     (filter (in_warning_window cfg current_date) snapshots))%list.
Proof.
  intro Hp. unfold process_snapshots_sequentially.
  revert s. induction snapshots as [|x l IH]; intro s; simpl.
  - rewrite app_nil_r. split; reflexivity.
  - unfold bind.
    destruct (process_snapshot_step x current_date s Hp) as [Hr Hc].
    destruct (process_snapshot cfg aws x current_date s) as [[[]|e] s1]; simpl in Hr, Hc;
      [|discriminate].
    destruct (IH s1) as [Hr' Hc']. split; [exact Hr'|].
    rewrite Hc', Hc, <- app_assoc.
    destruct (in_warning_window cfg current_date x); reflexivity.
Qed.

Lemma process_snapshots_in_batches_calls
    (snapshots : list Snapshot) (current_date : Z) (s : State) :
  0 < BATCH_SIZE cfg ->
  publish_fails_with_ClientError_only aws ->
  fst (process_snapshots_in_batches cfg aws snapshots current_date s) = Ok tt
  /\ calls (snd (process_snapshots_in_batches cfg aws snapshots current_date s))
     = (calls s ++ map (warning_call cfg current_date)
                     (filter (in_warning_window cfg current_date) snapshots))%list.
Proof.
  intros Hpos Hp.
  destruct (process_snapshots_sequentially_calls snapshots current_date s Hp) as [Hr Hc].
  destruct (batches_cover cfg snapshots Hpos) as [bs [Hbs Hcat]].
  assert (Hsame : same_run (process_snapshots_in_batches cfg aws snapshots current_date s)
                    (process_snapshots_sequentially cfg aws snapshots current_date s)).
  { unfold process_snapshots_in_batches, process_snapshots_sequentially.
    rewrite Hbs. rewrite <- Hcat.
    apply batched_loop_same_run with
      (line := fun batch => "Processed batch of " ++ str_of_int (len batch) ++ " snapshots").
    - intro x. apply log_blind_process_snapshot.
    - reflexivity. }
  destruct Hsame as [Hr1 Hc1]. rewrite Hr1, Hc1. split; assumption.
Qed.

(** A run in which the listing arrives and the notification and metrics
    clients fail with [ClientError] at most (valid configuration,
    positive batch size): the handler answers 200, and its calls are,
    in order, one listing request per page, one warning for each listed
    snapshot that is not exempt and is 1 to [WARNING_DAYS] days over
    retention, and a single [SnapshotsProcessed] increment. *)
Theorem lambda_handler_successful_run
    (pages : list (list Snapshot)) (utc_now : Z) (s : State) :
  valid_config cfg ->
  0 < BATCH_SIZE cfg ->
  publish_fails_with_ClientError_only aws ->
  metrics_fail_with_ClientError_only aws ->
  ec2_describe_snapshots aws (calls s) = map Ok pages ->
  fst (lambda_handler cfg aws utc_now s)
  = Ok {| statusCode := 200; body := "Snapshot cleanup completed successfully!" |}
  /\ calls (snd (lambda_handler cfg aws utc_now s))
     = (calls s
        ++ repeat DescribeSnapshots (length pages)
        ++ map (warning_call cfg utc_now)
             (filter (in_warning_window cfg utc_now) (concat pages))
        ++ [PutMetricData "SnapshotsProcessed"])%list.
Proof.
  intros Hvalid Hpos Hp Hm Hpages.
  apply validate_env_vars_accepts_iff with (s := s) in Hvalid.
  assert (Hbody : exists s4,
            handler_body cfg aws utc_now s
            = (Ok {| statusCode := 200; body := "Snapshot cleanup completed successfully!" |},
               s4)
            /\ calls s4
               = (calls s
                  ++ repeat DescribeSnapshots (length pages)
                  ++ map (warning_call cfg utc_now)
                       (filter (in_warning_window cfg utc_now) (concat pages))
                  ++ [PutMetricData "SnapshotsProcessed"])%list).
  { unfold handler_body, bind. rewrite Hvalid.
    rewrite (get_all_snapshots_collects_pages pages s Hpages).
    set (s1 := {| calls := _; logs := logs s |}).
    destruct (process_snapshots_in_batches_calls (concat pages) utc_now s1 Hpos Hp)
      as [Hr2 Hc2].
    destruct (process_snapshots_in_batches cfg aws (concat pages) utc_now s1)
      as [[[]|e] s2]; simpl in Hr2, Hc2; [|discriminate].
    unfold log at 1.
    set (s3 := {| calls := calls s2; logs := _ |}).
    pose proof (increment_metric_returns aws "SnapshotsProcessed" s3 Hm) as Hr4.
    pose proof (increment_metric_calls aws "SnapshotsProcessed" s3) as Hc4.
    destruct (increment_metric aws "SnapshotsProcessed" s3) as [[[]|e] s4];
      simpl in Hr4, Hc4; [|discriminate].
    exists s4. split; [reflexivity|].
    rewrite Hc4, Hc2. unfold s1. simpl. rewrite <- !app_assoc. reflexivity. }
  destruct Hbody as [s4 [Hbody Hc]].
  unfold lambda_handler, try_except. rewrite Hbody. simpl.
  split; [reflexivity | exact Hc].
Qed.

(** A run in which a page of the listing is refused with a
    [ClientError]: the handler answers 500, no snapshot of the pages
    already received is processed, and after the listing requests the
    only call is the [AWSAPIErrors] increment. *)
Theorem lambda_handler_listing_failure
    (good : list (list Snapshot)) (msg : string) (rest : list (outcome (list Snapshot)))
    (utc_now : Z) (s : State) :
  valid_config cfg ->
  metrics_fail_with_ClientError_only aws ->
  ec2_describe_snapshots aws (calls s)
  = (map Ok good ++ Raise (ClientError msg) :: rest)%list ->
  fst (lambda_handler cfg aws utc_now s)
  = Ok {| statusCode := 500; body := "An error occurred during AWS API call" |}
  /\ calls (snd (lambda_handler cfg aws utc_now s))
     = (calls s
        ++ repeat DescribeSnapshots (S (length good))
        ++ [PutMetricData "AWSAPIErrors"])%list.
Proof.
  intros Hvalid Hm Hpages.
  apply validate_env_vars_accepts_iff with (s := s) in Hvalid.
  assert (Hbody : handler_body cfg aws utc_now s
                  = (Raise (ClientError msg),
                     {| calls := (calls s ++ repeat DescribeSnapshots (S (length good)))%list;
                        logs := logs s |})).
  { unfold handler_body, bind. rewrite Hvalid.
    rewrite (get_all_snapshots_stops_at_failure good (ClientError msg) rest s Hpages).
    reflexivity. }
  unfold lambda_handler, try_except. rewrite Hbody.
  unfold bind, log.
  set (s1 := {| calls := _; logs := (_ ++ _)%list |}).
  pose proof (increment_metric_returns aws "AWSAPIErrors" s1 Hm) as Hr.
  pose proof (increment_metric_calls aws "AWSAPIErrors" s1) as Hc.
  destruct (increment_metric aws "AWSAPIErrors" s1) as [[[]|e] s2];
    simpl in Hr, Hc; [|discriminate].
  simpl. split; [reflexivity|].
  rewrite Hc. unfold s1. simpl. rewrite <- !app_assoc. reflexivity.
Qed.

End Coverage.

(** * The earlier handler *)

Section OldCoverage.

Variable cfg : Old.Config.
Variable aws : Old.Clients.

(** A snapshot younger than the retention period is only written to the
    log: the earlier handler makes no call for it. *)
Theorem old_young_snapshot_is_only_logged
    (snapshot : Snapshot) (current_date : Z) (s : State) :
  age_days snapshot current_date < Old.SNAPSHOT_RETENTION_DAYS cfg ->
  Old.check_snapshot cfg aws snapshot current_date s
  = (Ok tt,
     {| calls := calls s;
        logs := (logs s ++
                 [(INFO, ("Checking snapshot " ++ SnapshotId snapshot ++ " which is "
                          ++ str_of_int (age_days snapshot current_date)
                          ++ " days old.")%string);
                  (INFO, ("Snapshot " ++ SnapshotId snapshot
                          ++ " is not old enough to delete.")%string)])%list |}).
Proof.
  intro Hyoung. unfold Old.check_snapshot, bind, log. simpl.
  fold (age_days snapshot current_date).
  apply Z.leb_gt in Hyoung. rewrite Hyoung. simpl.
  rewrite <- app_assoc. reflexivity.
Qed.

(** A snapshot that has reached the retention period (its age may equal
    it) and that no AMI uses is announced, then deleted: the calls are
    the image lookup, the "Deleting snapshot" notification and the
    deletion, and the loop body returns whether the deletion succeeds or
    raises. *)
Theorem old_unused_snapshot_is_deleted
    (snapshot : Snapshot) (current_date : Z) (s : State) :
  Old.SNAPSHOT_RETENTION_DAYS cfg <= age_days snapshot current_date ->
  Old.ec2_describe_images aws (calls s) (SnapshotId snapshot) = Ok [] ->
  Old.sns_publish aws (calls s ++ [DescribeImages (SnapshotId snapshot)])%list
    (Old.SNS_TOPIC_ARN cfg)
    ("Deleting snapshot " ++ SnapshotId snapshot ++ " which is "
     ++ str_of_int (age_days snapshot current_date) ++ " days old.") = Ok tt ->
  fst (Old.check_snapshot cfg aws snapshot current_date s) = Ok tt
  /\ calls (snd (Old.check_snapshot cfg aws snapshot current_date s))
     = (calls s ++
        [DescribeImages (SnapshotId snapshot);
         Publish (Old.SNS_TOPIC_ARN cfg)
           ("Deleting snapshot " ++ SnapshotId snapshot ++ " which is "
            ++ str_of_int (age_days snapshot current_date) ++ " days old.");
         DeleteSnapshot (SnapshotId snapshot)])%list.
Proof.
  intros Hold Hlookup Hpublish.
  unfold Old.check_snapshot, Old.announce_and_delete, try_except, bind, call, log. simpl.
  fold (age_days snapshot current_date).
  apply Z.leb_le in Hold. rewrite Hold. simpl. rewrite Hlookup. simpl.
  rewrite Hpublish. simpl.
  destruct (Old.ec2_delete_snapshot aws _ (SnapshotId snapshot)) as [response|e]; simpl;
    rewrite <- !app_assoc; split; reflexivity.
Qed.

(** When the "Deleting snapshot" notification raises, whatever the
    exception, the snapshot is not deleted: the error is written to the
    log and the loop body returns. *)
Theorem old_refused_notification_prevents_deletion
    (snapshot : Snapshot) (current_date : Z) (s : State) (e : exn) :
  Old.SNAPSHOT_RETENTION_DAYS cfg <= age_days snapshot current_date ->
  Old.ec2_describe_images aws (calls s) (SnapshotId snapshot) = Ok [] ->
  Old.sns_publish aws (calls s ++ [DescribeImages (SnapshotId snapshot)])%list
    (Old.SNS_TOPIC_ARN cfg)
    ("Deleting snapshot " ++ SnapshotId snapshot ++ " which is "
     ++ str_of_int (age_days snapshot current_date) ++ " days old.") = Raise e ->
  fst (Old.check_snapshot cfg aws snapshot current_date s) = Ok tt
  /\ calls (snd (Old.check_snapshot cfg aws snapshot current_date s))
     = (calls s ++
        [DescribeImages (SnapshotId snapshot);
         Publish (Old.SNS_TOPIC_ARN cfg)
           ("Deleting snapshot " ++ SnapshotId snapshot ++ " which is "
            ++ str_of_int (age_days snapshot current_date) ++ " days old.")])%list
  /\ In (ERROR, ("Error deleting snapshot " ++ SnapshotId snapshot ++ ": "
                 ++ str_of_exn e)%string)
        (logs (snd (Old.check_snapshot cfg aws snapshot current_date s))).
Proof.
  intros Hold Hlookup Hpublish.
  unfold Old.check_snapshot, Old.announce_and_delete, try_except, bind, call, log. simpl.
  fold (age_days snapshot current_date).
  apply Z.leb_le in Hold. rewrite Hold. simpl. rewrite Hlookup. simpl.
  rewrite Hpublish. simpl.
  rewrite <- !app_assoc. split; [reflexivity | split; [reflexivity|]].
  apply in_or_app. right. simpl. auto.
Qed.

(** The earlier handler calls [delete_snapshot] for a snapshot only when
    its age has reached the retention period, its image lookup returned
    no image, and the notification that announces the deletion
    returned. *)
Theorem old_deletion_needs_empty_lookup_and_notification
    (snapshot : Snapshot) (current_date : Z) (s : State) :
  exists added,
    calls (snd (Old.check_snapshot cfg aws snapshot current_date s))
    = (calls s ++ added)%list
    /\ (existsb is_delete added = true ->
        Old.SNAPSHOT_RETENTION_DAYS cfg <= age_days snapshot current_date
        /\ Old.ec2_describe_images aws (calls s) (SnapshotId snapshot) = Ok []
        /\ Old.sns_publish aws (calls s ++ [DescribeImages (SnapshotId snapshot)])%list
             (Old.SNS_TOPIC_ARN cfg)
             ("Deleting snapshot " ++ SnapshotId snapshot ++ " which is "
              ++ str_of_int (age_days snapshot current_date) ++ " days old.") = Ok tt).
Proof.
  unfold Old.check_snapshot, Old.announce_and_delete, try_except, bind, call, log. simpl.
  fold (age_days snapshot current_date).
  destruct (Z.leb_spec (Old.SNAPSHOT_RETENTION_DAYS cfg) (age_days snapshot current_date))
    as [Hold | Hyoung]; simpl.
  - destruct (Old.ec2_describe_images aws (calls s) (SnapshotId snapshot))
      as [[|image images]|e] eqn:Hlookup; simpl.
    + destruct (Old.sns_publish aws _ (Old.SNS_TOPIC_ARN cfg) _) as [[]|e] eqn:Hpublish;
        simpl.
      * destruct (Old.ec2_delete_snapshot aws _ (SnapshotId snapshot)) as [response|e];
          simpl; rewrite <- !app_assoc; simpl;
          (eexists; split; [reflexivity|]); intros _; auto.
      * rewrite <- !app_assoc. simpl. eexists. split; [reflexivity|]. discriminate.
    + destruct (Old.sns_publish aws _ (Old.SNS_TOPIC_ARN cfg) _) as [[]|e]; simpl;
        rewrite <- !app_assoc; simpl; (eexists; split; [reflexivity|]); discriminate.
    + eexists. split; [reflexivity|]. discriminate.
  - exists []. rewrite app_nil_r. split; [reflexivity|]. discriminate.
Qed.

Lemma old_young_snapshots_loop (snapshots : list Snapshot) (current_date : Z) (s : State) :
  Forall (fun snapshot =>
            age_days snapshot current_date < Old.SNAPSHOT_RETENTION_DAYS cfg) snapshots ->
  fst (for_each snapshots (fun snapshot => Old.check_snapshot cfg aws snapshot current_date) s)
  = Ok tt
  /\ calls (snd (for_each snapshots
                   (fun snapshot => Old.check_snapshot cfg aws snapshot current_date) s))
     = calls s.
Proof.
  intro Hyoung. revert s. induction Hyoung as [|x l Hx Hl IH]; intro s; simpl.
  - split; reflexivity.
  - unfold bind. rewrite (old_young_snapshot_is_only_logged x current_date s Hx).
    match goal with
    | |- context [for_each l _ ?s1] => destruct (IH s1) as [Hr Hc]
    end.
    split; [exact Hr | exact Hc].
Qed.

(** When every listed snapshot is younger than the retention period, and
    so when none is listed, the earlier handler answers 200 and its only
    call is the listing. *)
Theorem old_handler_leaves_young_snapshots
    (snapshots : list Snapshot) (utc_now : Z) (s : State) :
  Old.ec2_describe_snapshots aws (calls s) = Ok snapshots ->
  Forall (fun snapshot =>
            age_days snapshot utc_now < Old.SNAPSHOT_RETENTION_DAYS cfg) snapshots ->
  fst (Old.lambda_handler cfg aws utc_now s)
  = Ok {| statusCode := 200; body := "Snapshot cleanup completed successfully!" |}
  /\ calls (snd (Old.lambda_handler cfg aws utc_now s))
     = (calls s ++ [DescribeSnapshots])%list.
Proof.
  intros Hlist Hyoung.
  assert (Hrun : exists s2,
            Old.lambda_handler cfg aws utc_now s
            = (Ok {| statusCode := 200; body := "Snapshot cleanup completed successfully!" |},
               s2)
            /\ calls s2 = (calls s ++ [DescribeSnapshots])%list).
  { unfold Old.lambda_handler, bind, call, log. simpl. rewrite Hlist.
    match goal with
    | |- context [for_each snapshots ?f ?s1] =>
        destruct (old_young_snapshots_loop snapshots utc_now s1 Hyoung) as [Hr Hc];
        destruct (for_each snapshots f s1) as [[[]|e] s2]
    end; simpl in Hr, Hc; [|discriminate].
    exists s2. split; [reflexivity | exact Hc]. }
  destruct Hrun as [s2 [Hrun Hc]]. rewrite Hrun. split; [reflexivity | exact Hc].
Qed.

(** The earlier handler has no [try] around the listing or the image
    lookup: when the lookup made for the first snapshot old enough
    raises, the handler raises that exception and the snapshots after
    it are not examined. *)
Theorem old_handler_raises_on_failed_lookup
    (young : list Snapshot) (snapshot : Snapshot) (rest : list Snapshot)
    (e : exn) (utc_now : Z) (s : State) :
  Old.ec2_describe_snapshots aws (calls s) = Ok (young ++ snapshot :: rest)%list ->
  Forall (fun x => age_days x utc_now < Old.SNAPSHOT_RETENTION_DAYS cfg) young ->
  Old.SNAPSHOT_RETENTION_DAYS cfg <= age_days snapshot utc_now ->
  Old.ec2_describe_images aws (calls s ++ [DescribeSnapshots])%list (SnapshotId snapshot)
  = Raise e ->
  fst (Old.lambda_handler cfg aws utc_now s) = Raise e
  /\ calls (snd (Old.lambda_handler cfg aws utc_now s))
     = (calls s ++ [DescribeSnapshots; DescribeImages (SnapshotId snapshot)])%list.
Proof.
  intros Hlist Hyoung Hold Hlookup.
  assert (Hrun : exists s3,
            Old.lambda_handler cfg aws utc_now s = (Raise e, s3)
            /\ calls s3
               = (calls s ++ [DescribeSnapshots; DescribeImages (SnapshotId snapshot)])%list).
  { unfold Old.lambda_handler. unfold bind at 1. unfold call at 1. rewrite Hlist.
    unfold bind at 1. unfold log at 1. unfold bind at 1.
    rewrite for_each_app. unfold bind at 1.
    match goal with
    | |- context [for_each young ?f ?s1] =>
        destruct (old_young_snapshots_loop young utc_now s1 Hyoung) as [Hr Hc];
        destruct (for_each young f s1) as [[[]|e'] s2]
    end; simpl in Hr, Hc; [|discriminate].
    simpl for_each. unfold bind at 1.
    unfold Old.check_snapshot at 1. unfold bind, log, call. simpl.
    fold (age_days snapshot utc_now).
    apply Z.leb_le in Hold. rewrite Hold. simpl. rewrite Hc, Hlookup.
    eexists. split; [reflexivity|]. simpl. rewrite <- app_assoc. reflexivity. }
  destruct Hrun as [s3 [Hrun Hc]]. rewrite Hrun. split; [reflexivity | exact Hc].
Qed.

End OldCoverage.

(** ** Concrete runs of the further properties *)

Lemma sample_cfg_is_valid : valid_config sample_cfg.
Proof.
  unfold valid_config. simpl. split; [discriminate | split; lia].
Qed.

Lemma get_all_snapshots_collects_pages_witness :
  ec2_describe_snapshots (two_page_aws [snap "snap-1" 0] [snap "snap-2" 0]) (calls start_state)
  = map Ok [[snap "snap-1" 0]; [snap "snap-2" 0]]
  /\ get_all_snapshots (two_page_aws [snap "snap-1" 0] [snap "snap-2" 0]) start_state
     = (Ok [snap "snap-1" 0; snap "snap-2" 0],
        {| calls := [DescribeSnapshots; DescribeSnapshots]; logs := [] |}).
Proof.
  split; [reflexivity|].
  exact (get_all_snapshots_collects_pages
           (two_page_aws [snap "snap-1" 0] [snap "snap-2" 0])
           [[snap "snap-1" 0]; [snap "snap-2" 0]] start_state eq_refl).
Defined.

Lemma get_all_snapshots_stops_at_failure_witness :
  ec2_describe_snapshots (second_page_denied_aws [snap "snap-1" 0]) (calls start_state)
  = (map Ok [[snap "snap-1" 0]] ++ Raise (ClientError "RequestLimitExceeded") :: [Ok []])%list
  /\ get_all_snapshots (second_page_denied_aws [snap "snap-1" 0]) start_state
     = (Raise (ClientError "RequestLimitExceeded"),
        {| calls := [DescribeSnapshots; DescribeSnapshots]; logs := [] |}).
Proof.
  split; [reflexivity|].
  exact (get_all_snapshots_stops_at_failure
           (second_page_denied_aws [snap "snap-1" 0])
           [[snap "snap-1" 0]] (ClientError "RequestLimitExceeded") [Ok []]
           start_state eq_refl).
Defined.

Lemma overdue_snapshot_is_ignored_witness :
  ~ exempt (snap "snap-1" 0)
  /\ WARNING_DAYS sample_cfg < days_over sample_cfg (snap "snap-1" 0) (day 36)
  /\ process_snapshot sample_cfg (quiet_aws []) (snap "snap-1" 0) (day 36) start_state
     = (Ok tt, start_state).
Proof.
  assert (Hne : ~ exempt (snap "snap-1" 0)) by (apply not_exempt_spec; reflexivity).
  assert (Hover : WARNING_DAYS sample_cfg < days_over sample_cfg (snap "snap-1" 0) (day 36))
    by reflexivity.
  split; [exact Hne | split; [exact Hover |]].
  exact (overdue_snapshot_is_ignored sample_cfg (quiet_aws []) (snap "snap-1" 0) (day 36)
           start_state Hne Hover).
Defined.

Lemma process_snapshot_raises_only_from_publish_witness :
  fst (process_snapshot sample_cfg offline_aws (snap "snap-1" 0) (day 31) start_state)
  = Raise (OtherException "EndpointConnectionError")
  /\ in_warning_window sample_cfg (day 31) (snap "snap-1" 0) = true
  /\ sns_publish offline_aws [] (SNS_TOPIC_ARN sample_cfg)
       "Snapshot snap-1 will be deleted in 1 days."
     = Raise (OtherException "EndpointConnectionError").
Proof.
  split; [reflexivity|].
  destruct (process_snapshot_raises_only_from_publish sample_cfg offline_aws
              (snap "snap-1" 0) (day 31) start_state
              (OtherException "EndpointConnectionError") eq_refl)
    as (Hwin & Hpublish & _).
  split; [exact Hwin | exact Hpublish].
Defined.

Lemma unused_snapshot_is_deleted_witness :
  publish_fails_with_ClientError_only (quiet_aws [])
  /\ DRY_RUN sample_cfg = false
  /\ ec2_describe_images (quiet_aws []) (calls start_state) "snap-1" = Ok []
  /\ ec2_delete_snapshot (quiet_aws []) [DescribeImages "snap-1"] "snap-1" = Ok tt
  /\ calls (snd (delete_if_unused sample_cfg (quiet_aws []) (snap "snap-1" 0) start_state))
     = [DescribeImages "snap-1";
        DeleteSnapshot "snap-1";
        Publish (SNS_TOPIC_ARN sample_cfg)
          "Deleted snapshot snap-1 which exceeded retention period.";
        PutMetricData "SnapshotsDeleted"].
Proof.
  assert (Hp : publish_fails_with_ClientError_only (quiet_aws []))
    by (intros h topic message e H; discriminate H).
  repeat (split; [first [exact Hp | reflexivity] |]).
  exact (unused_snapshot_is_deleted sample_cfg (quiet_aws []) (snap "snap-1" 0) start_state
           Hp eq_refl eq_refl eq_refl).
Defined.

Lemma dry_run_reports_without_deleting_witness :
  publish_fails_with_ClientError_only (quiet_aws [])
  /\ DRY_RUN sample_cfg_dry_run = true
  /\ ec2_describe_images (quiet_aws []) (calls start_state) "snap-1" = Ok []
  /\ calls (snd (delete_if_unused sample_cfg_dry_run (quiet_aws []) (snap "snap-1" 0)
                   start_state))
     = [DescribeImages "snap-1";
        Publish (SNS_TOPIC_ARN sample_cfg)
          "[DRY RUN] Would have deleted snapshot snap-1 which exceeded retention period.";
        PutMetricData "SnapshotsDeleted"].
Proof.
  assert (Hp : publish_fails_with_ClientError_only (quiet_aws []))
    by (intros h topic message e H; discriminate H).
  repeat (split; [first [exact Hp | reflexivity] |]).
  exact (dry_run_reports_without_deleting sample_cfg_dry_run (quiet_aws [])
           (snap "snap-1" 0) start_state Hp eq_refl eq_refl).
Defined.

Lemma zero_batch_size_is_reported_as_validation_error_witness :
  valid_config zero_batch_cfg
  /\ BATCH_SIZE zero_batch_cfg = 0
  /\ ec2_describe_snapshots (quiet_aws [snap "snap-1" 0]) (calls start_state)
     = map Ok [[snap "snap-1" 0]]
  /\ lambda_handler zero_batch_cfg (quiet_aws [snap "snap-1" 0]) (day 31) start_state
     = (Ok {| statusCode := 400;
              body := "Validation error: range() arg 3 must not be zero" |},
        {| calls := [DescribeSnapshots];
           logs := [(ERROR, "Validation error: range() arg 3 must not be zero")] |}).
Proof.
  assert (Hvalid : valid_config zero_batch_cfg) by exact sample_cfg_is_valid.
  repeat (split; [first [exact Hvalid | reflexivity] |]).
  exact (zero_batch_size_is_reported_as_validation_error zero_batch_cfg
           (quiet_aws [snap "snap-1" 0]) [[snap "snap-1" 0]] (day 31) start_state
           Hvalid eq_refl eq_refl).
Defined.

Lemma negative_batch_size_processes_nothing_witness :
  BATCH_SIZE negative_batch_cfg < 0
  /\ process_snapshots_in_batches negative_batch_cfg (quiet_aws [])
       [snap "snap-1" 0; snap "snap-2" 0] (day 31) start_state
     = (Ok tt, start_state).
Proof.
  assert (Hneg : BATCH_SIZE negative_batch_cfg < 0) by reflexivity.
  split; [exact Hneg |].
  exact (negative_batch_size_processes_nothing negative_batch_cfg (quiet_aws [])
           [snap "snap-1" 0; snap "snap-2" 0] (day 31) start_state Hneg).
Defined.

Lemma batches_are_full_and_bounded_witness :
  0 < BATCH_SIZE sample_cfg
  /\ exists bs,
       batches sample_cfg (repeat (snap "snap-1" 0) 250) = Ok bs
       /\ len bs = 3
       /\ Forall (fun batch => 0 < len batch <= 100) bs.
Proof.
  assert (Hpos : 0 < BATCH_SIZE sample_cfg) by reflexivity.
  split; [exact Hpos |].
  destruct (batches_are_full_and_bounded sample_cfg (repeat (snap "snap-1" 0) 250) Hpos)
    as (bs & Hbs & Hlen & Hall).
  exists bs. split; [exact Hbs | split; [|exact Hall]].
  rewrite Hlen. unfold len. rewrite repeat_length. reflexivity.
Defined.

Lemma lambda_handler_successful_run_witness :
  valid_config sample_cfg
  /\ 0 < BATCH_SIZE sample_cfg
  /\ publish_fails_with_ClientError_only
       (two_page_aws [snap "snap-1" 0] [snap "snap-2" (day 20)])
  /\ metrics_fail_with_ClientError_only
       (two_page_aws [snap "snap-1" 0] [snap "snap-2" (day 20)])
  /\ fst (lambda_handler sample_cfg (two_page_aws [snap "snap-1" 0] [snap "snap-2" (day 20)])
            (day 33) start_state)
     = Ok {| statusCode := 200; body := "Snapshot cleanup completed successfully!" |}
  /\ calls (snd (lambda_handler sample_cfg
                   (two_page_aws [snap "snap-1" 0] [snap "snap-2" (day 20)])
                   (day 33) start_state))
     = [DescribeSnapshots; DescribeSnapshots;
        Publish (SNS_TOPIC_ARN sample_cfg) "Snapshot snap-1 will be deleted in 3 days.";
        PutMetricData "SnapshotsProcessed"].
Proof.
  assert (Hpos : 0 < BATCH_SIZE sample_cfg) by reflexivity.
  assert (Hp : publish_fails_with_ClientError_only
                 (two_page_aws [snap "snap-1" 0] [snap "snap-2" (day 20)]))
    by (intros h topic message e H; discriminate H).
  assert (Hm : metrics_fail_with_ClientError_only
                 (two_page_aws [snap "snap-1" 0] [snap "snap-2" (day 20)]))
    by (intros h metric_name e H; discriminate H).
  split; [exact sample_cfg_is_valid | split; [exact Hpos | split; [exact Hp | split;
    [exact Hm |]]]].
  exact (lambda_handler_successful_run sample_cfg
           (two_page_aws [snap "snap-1" 0] [snap "snap-2" (day 20)])
           [[snap "snap-1" 0]; [snap "snap-2" (day 20)]] (day 33) start_state
           sample_cfg_is_valid Hpos Hp Hm eq_refl).
Defined.

Lemma lambda_handler_listing_failure_witness :
  valid_config sample_cfg
  /\ metrics_fail_with_ClientError_only (second_page_denied_aws [snap "snap-1" 0])
  /\ fst (lambda_handler sample_cfg (second_page_denied_aws [snap "snap-1" 0]) (day 33)
            start_state)
     = Ok {| statusCode := 500; body := "An error occurred during AWS API call" |}
  /\ calls (snd (lambda_handler sample_cfg (second_page_denied_aws [snap "snap-1" 0])
                   (day 33) start_state))
     = [DescribeSnapshots; DescribeSnapshots; PutMetricData "AWSAPIErrors"].
Proof.
  assert (Hm : metrics_fail_with_ClientError_only (second_page_denied_aws [snap "snap-1" 0]))
    by (intros h metric_name e H; discriminate H).
  split; [exact sample_cfg_is_valid | split; [exact Hm |]].
  exact (lambda_handler_listing_failure sample_cfg (second_page_denied_aws [snap "snap-1" 0])
           [[snap "snap-1" 0]] "RequestLimitExceeded" [Ok []] (day 33) start_state
           sample_cfg_is_valid Hm eq_refl).
Defined.

Lemma old_young_snapshot_is_only_logged_witness :
  age_days (snap "snap-1" 0) (day 29) < Old.SNAPSHOT_RETENTION_DAYS old_cfg
  /\ Old.check_snapshot old_cfg (old_quiet_aws []) (snap "snap-1" 0) (day 29) start_state
     = (Ok tt,
        {| calls := [];
           logs := [(INFO, "Checking snapshot snap-1 which is 29 days old.");
                    (INFO, "Snapshot snap-1 is not old enough to delete.")] |}).
Proof.
  assert (Hyoung : age_days (snap "snap-1" 0) (day 29) < Old.SNAPSHOT_RETENTION_DAYS old_cfg)
    by reflexivity.
  split; [exact Hyoung |].
  exact (old_young_snapshot_is_only_logged old_cfg (old_quiet_aws []) (snap "snap-1" 0)
           (day 29) start_state Hyoung).
Defined.

Lemma old_unused_snapshot_is_deleted_witness :
  Old.SNAPSHOT_RETENTION_DAYS old_cfg <= age_days (snap "snap-1" 0) (day 30)
  /\ fst (Old.check_snapshot old_cfg (old_quiet_aws []) (snap "snap-1" 0) (day 30)
            start_state) = Ok tt
  /\ calls (snd (Old.check_snapshot old_cfg (old_quiet_aws []) (snap "snap-1" 0) (day 30)
                   start_state))
     = [DescribeImages "snap-1";
        Publish (SNS_TOPIC_ARN sample_cfg) "Deleting snapshot snap-1 which is 30 days old.";
        DeleteSnapshot "snap-1"].
Proof.
  assert (Hold : Old.SNAPSHOT_RETENTION_DAYS old_cfg <= age_days (snap "snap-1" 0) (day 30))
    by (vm_compute; discriminate).
  split; [exact Hold |].
  exact (old_unused_snapshot_is_deleted old_cfg (old_quiet_aws []) (snap "snap-1" 0)
           (day 30) start_state Hold eq_refl eq_refl).
Defined.

Lemma old_refused_notification_prevents_deletion_witness :
  Old.SNAPSHOT_RETENTION_DAYS old_cfg <= age_days (snap "snap-1" 0) (day 45)
  /\ fst (Old.check_snapshot old_cfg (old_no_sns_aws []) (snap "snap-1" 0) (day 45)
            start_state) = Ok tt
  /\ calls (snd (Old.check_snapshot old_cfg (old_no_sns_aws []) (snap "snap-1" 0) (day 45)
                   start_state))
     = [DescribeImages "snap-1";
        Publish (SNS_TOPIC_ARN sample_cfg) "Deleting snapshot snap-1 which is 45 days old."].
Proof.
  assert (Hold : Old.SNAPSHOT_RETENTION_DAYS old_cfg <= age_days (snap "snap-1" 0) (day 45))
    by (vm_compute; discriminate).
  split; [exact Hold |].
  destruct (old_refused_notification_prevents_deletion old_cfg (old_no_sns_aws [])
              (snap "snap-1" 0) (day 45) start_state (ClientError "AuthorizationError")
              Hold eq_refl eq_refl)
    as (Hr & Hc & _).
  split; [exact Hr | exact Hc].
Defined.

Lemma old_handler_leaves_young_snapshots_witness :
  Forall (fun snapshot => age_days snapshot (day 29) < Old.SNAPSHOT_RETENTION_DAYS old_cfg)
    [snap "snap-1" 0; snap "snap-2" (day 20)]
  /\ fst (Old.lambda_handler old_cfg
            (old_quiet_aws [snap "snap-1" 0; snap "snap-2" (day 20)]) (day 29) start_state)
     = Ok {| statusCode := 200; body := "Snapshot cleanup completed successfully!" |}
  /\ calls (snd (Old.lambda_handler old_cfg
                   (old_quiet_aws [snap "snap-1" 0; snap "snap-2" (day 20)]) (day 29)
                   start_state))
     = [DescribeSnapshots].
Proof.
  assert (Hyoung : Forall (fun snapshot =>
                             age_days snapshot (day 29) < Old.SNAPSHOT_RETENTION_DAYS old_cfg)
                     [snap "snap-1" 0; snap "snap-2" (day 20)])
    by (repeat constructor).
  split; [exact Hyoung |].
  exact (old_handler_leaves_young_snapshots old_cfg
           (old_quiet_aws [snap "snap-1" 0; snap "snap-2" (day 20)])
           [snap "snap-1" 0; snap "snap-2" (day 20)] (day 29) start_state eq_refl Hyoung).
Defined.

Lemma old_handler_raises_on_failed_lookup_witness :
  Forall (fun x => age_days x (day 40) < Old.SNAPSHOT_RETENTION_DAYS old_cfg)
    [snap "snap-1" (day 20)]
  /\ Old.SNAPSHOT_RETENTION_DAYS old_cfg <= age_days (snap "snap-2" 0) (day 40)
  /\ fst (Old.lambda_handler old_cfg
            (old_throttled_aws [snap "snap-1" (day 20); snap "snap-2" 0; snap "snap-3" 0])
            (day 40) start_state)
     = Raise (ClientError "RequestLimitExceeded")
  /\ calls (snd (Old.lambda_handler old_cfg
                   (old_throttled_aws [snap "snap-1" (day 20); snap "snap-2" 0; snap "snap-3" 0])
                   (day 40) start_state))
     = [DescribeSnapshots; DescribeImages "snap-2"].
Proof.
  assert (Hyoung : Forall (fun x => age_days x (day 40) < Old.SNAPSHOT_RETENTION_DAYS old_cfg)
                     [snap "snap-1" (day 20)])
    by (repeat constructor).
  assert (Hold : Old.SNAPSHOT_RETENTION_DAYS old_cfg <= age_days (snap "snap-2" 0) (day 40))
    by (vm_compute; discriminate).
  split; [exact Hyoung | split; [exact Hold |]].
  exact (old_handler_raises_on_failed_lookup old_cfg
           (old_throttled_aws [snap "snap-1" (day 20); snap "snap-2" 0; snap "snap-3" 0])
           [snap "snap-1" (day 20)] (snap "snap-2" 0) [snap "snap-3" 0]
           (ClientError "RequestLimitExceeded") (day 40) start_state
           eq_refl Hyoung Hold eq_refl).
Defined.
